(** * The mock supply-chain order evaluator of backend/app/autogen.py

    A shallow embedding of [MockSupplyChainAgentSystem.process_order] and of
    the [OrderDetails(...)] construction in [process_supply_chain_order],
    together with the Python built-ins they call; and of the rest of the
    module: [SupplyChainAgentSystem._parse_agent_responses] and
    [process_order] (the stream of the agents' team being a parameter),
    [get_agent_system], and the response dictionary of
    [process_supply_chain_order].

    Conventions of the embedding:
    - Python [int] is [Z]; Python [float] is a binary64 primitive float;
    - Python [str] is [string], read as ASCII text: [upper] and [lower] map
      the letters a-z / A-Z, and [slice_to] counts characters as bytes; on
      text outside ASCII Python's Unicode-aware [upper], [lower] and slicing
      differ, so every statement whose truth depends on them carries the
      hypothesis [Py.isascii] on the text concerned;
    - the stream of the agents' team is a parameter: the items it yields
      and how it ends, exhausted or by an exception; a stream that never
      ends is not covered, [process_order] does not return then;
    - [datetime.utcnow()] reads a clock; the clock is threaded explicitly
      through the [Clk] monad, one reading per call, in the order in which
      Python evaluates the calls;
    - [process_order] is embedded at the field types the [OrderDetails]
      dataclass annotates ([str], [int], [Optional[str]]);
    - the request dictionary is a [gmap string PyVal]; the dataclass does
      not convert or check what it is given, so the arguments of the
      [OrderDetails(...)] call are kept as [PyVal]s in [OrderArgs]. *)

From Stdlib Require Import ZArith String Ascii List DecimalString Lia.
From Stdlib Require Import Floats.PrimFloat Floats.SpecFloat Floats.FloatOps.
From stdpp Require Import gmap strings.

Local Open Scope string_scope.
Local Open Scope Z_scope.

(** ** Python built-ins used by the code *)

Module Py.

(** [str(n)] for an [int], also what an f-string field [{n}] produces. *)
Definition str_of_int (n : Z) : string :=
  NilZero.string_of_int (Z.to_int n).

Definition is_lower (c : ascii) : bool :=
  let n := N_of_ascii c in ((97 <=? n) && (n <=? 122))%N.

Definition is_upper (c : ascii) : bool :=
  let n := N_of_ascii c in ((65 <=? n) && (n <=? 90))%N.

Definition upper_char (c : ascii) : ascii :=
  if is_lower c then ascii_of_N (N_of_ascii c - 32) else c.

Definition lower_char (c : ascii) : ascii :=
  if is_upper c then ascii_of_N (N_of_ascii c + 32) else c.

Fixpoint str_map (f : ascii -> ascii) (s : string) : string :=
  match s with
  | EmptyString => EmptyString
  | String c s' => String (f c) (str_map f s')
  end.

(** [s.upper()] and [s.lower()] on ASCII text ([isascii]); Python's
    methods also map letters outside ASCII, and may lengthen the text. *)
Definition upper (s : string) : string := str_map upper_char s.
Definition lower (s : string) : string := str_map lower_char s.

(** [s.isascii()] *)
Definition is_ascii_char (c : ascii) : bool := (N_of_ascii c <? 128)%N.

Fixpoint isascii (s : string) : bool :=
  match s with
  | EmptyString => true
  | String c rest => is_ascii_char c && isascii rest
  end.

(** A string of the decimal digits 0-9 only. *)
Definition is_digit (c : ascii) : bool :=
  let n := N_of_ascii c in ((48 <=? n) && (n <=? 57))%N.

Fixpoint all_digits (s : string) : bool :=
  match s with
  | EmptyString => true
  | String c rest => is_digit c && all_digits rest
  end.

(** [s[:n]] for a non-negative literal [n], on ASCII text, where a
    character is a byte. *)
Definition slice_to (n : nat) (s : string) : string := substring 0 n s.

Fixpoint repeat_char (c : ascii) (n : nat) : string :=
  match n with
  | O => EmptyString
  | S n' => String c (repeat_char c n')
  end.

(** [format(s, "F>W")]: fill character [F], alignment [>] (the text is
    pushed to the right, the fill goes in front), minimum width [W].
    A text of [W] characters or more is left as it is. *)
Definition format_right_align (fill : ascii) (width : nat) (s : string) : string :=
  repeat_char fill (width - String.length s) +:+ s.

(** [s.ljust(W, F)]: the fill goes behind the text. *)
Definition ljust (width : nat) (fill : ascii) (s : string) : string :=
  s +:+ repeat_char fill (width - String.length s).

(** Truthiness of a [str]: the empty string is falsy. *)
Definition str_truthy (s : string) : bool :=
  match s with EmptyString => false | String _ _ => true end.

(** [a or b] on strings. *)
Definition str_or (a b : string) : string := if str_truthy a then a else b.

(** [l.append(x)], as the list it leaves behind. *)
Definition append {A} (l : list A) (x : A) : list A := (l ++ [x])%list.

(** The integer nearest to [n * 2^e], a tie going to the even one. *)
Definition round_half_even_scaled (n e : Z) : Z :=
  if 0 <=? e then n * 2 ^ e
  else
    let d := 2 ^ (- e) in
    let q := n / d in
    let r := n mod d in
    if 2 * r <? d then q
    else if d <? 2 * r then q + 1
    else if Z.even q then q else q + 1.

(** [format(x, ".2f")]: the exact binary value of [x] rounded to two
    decimals, ties to even, printed with both decimals. *)
Definition format_2f (x : float) : string :=
  match Prim2SF x with
  | S754_nan => "nan"
  | S754_infinity s => if s then "-inf" else "inf"
  | S754_zero s => (if s then "-" else "") +:+ "0.00"
  | S754_finite s m e =>
      let n := round_half_even_scaled (Z.pos m * 100) e in
      (if s then "-" else "") +:+ str_of_int (n / 100) +:+ "."
        +:+ (if n mod 100 <? 10 then "0" else "") +:+ str_of_int (n mod 100)
  end.

(** The [Any] values a request dictionary carries (JSON scalars). *)
Inductive PyVal : Type :=
| PyNone
| PyBool (b : bool)
| PyInt (n : Z)
| PyFloat (x : float)
| PyStr (s : string).

(** [d.get(key, default)] *)
Definition dict_get (d : gmap string PyVal) (key : string) (default : PyVal) : PyVal :=
  match d !! key with
  | Some v => v
  | None => default
  end.

(** [needle in haystack] on strings. *)
Fixpoint contains (needle haystack : string) : bool :=
  String.prefix needle haystack
  || match haystack with
     | EmptyString => false
     | String _ rest => contains needle rest
     end.

(** [v == s] for a value [v] and a string [s]: only an equal [str] is
    equal to a [str]. *)
Definition eq_str (v : PyVal) (s : string) : bool :=
  match v with
  | PyStr t => String.eqb t s
  | _ => false
  end.

(** The exceptions the code can raise; [ExternalError] is an exception
    raised inside an external collaborator, named by its class. *)
Inductive PyError : Type :=
| KeyError (key : string)
| AttributeError (attr : string)
| ExternalError (name : string).

(** A computation that returns or raises. *)
Inductive Raises (A : Type) : Type :=
| Ok (a : A)
| Raise (e : PyError).

Arguments Ok {A} a.
Arguments Raise {A} e.

(** The values of a response dictionary.  A dictionary literal is the list
    of its items, in the order in which they are written. *)
#[local] Unset Elimination Schemes.
Inductive PyObj : Type :=
| ONone
| OBool (b : bool)
| OInt (n : Z)
| OFloat (x : float)
| OStr (s : string)
| OList (l : list PyObj)
| ODict (items : list (string * PyObj)).
#[local] Set Elimination Schemes.

(** [d[key]] on the items of a dictionary; [None] where Python raises
    [KeyError]. *)
Fixpoint items_get (items : list (string * PyObj)) (key : string) : option PyObj :=
  match items with
  | [] => None
  | (k, v) :: rest => if String.eqb k key then Some v else items_get rest key
  end.

Definition obj_get (o : PyObj) (key : string) : option PyObj :=
  match o with
  | ODict items => items_get items key
  | _ => None
  end.

(** The line feed and the double quote. *)
Definition nl : string := String "010"%char EmptyString.
Definition dquote : string := String "034"%char EmptyString.

End Py.

(** ** datetime *)

Module datetime.

Record t : Type := mk {
  year : Z; month : Z; day : Z;
  hour : Z; minute : Z; second : Z;
  microsecond : Z
}.

(** ["%0Wd" % n] *)
Definition zero_pad (width : nat) (n : Z) : string :=
  Py.format_right_align "0"%char width (Py.str_of_int n).

(** [dt.isoformat()]: the fraction is printed only when it is not zero. *)
Definition isoformat (dt : t) : string :=
  zero_pad 4 (year dt) +:+ "-" +:+ zero_pad 2 (month dt) +:+ "-" +:+ zero_pad 2 (day dt)
  +:+ "T" +:+ zero_pad 2 (hour dt) +:+ ":" +:+ zero_pad 2 (minute dt)
  +:+ ":" +:+ zero_pad 2 (second dt)
  +:+ (if microsecond dt =? 0 then "" else "." +:+ zero_pad 6 (microsecond dt)).

(** [dt.strftime('%Y%m%d%H%M%S')], for the four-digit years a clock gives. *)
Definition strftime_YmdHMS (dt : t) : string :=
  zero_pad 4 (year dt) +:+ zero_pad 2 (month dt) +:+ zero_pad 2 (day dt)
  +:+ zero_pad 2 (hour dt) +:+ zero_pad 2 (minute dt) +:+ zero_pad 2 (second dt).

End datetime.

(** ** The clock

    A clock is the sequence of the readings that the successive calls of
    [datetime.utcnow()] will return. *)

Definition Clock : Type := nat -> datetime.t.

Definition Clk (A : Type) : Type := Clock -> A * Clock.

Definition ret {A} (a : A) : Clk A := fun c => (a, c).

Definition bind {A B} (m : Clk A) (k : A -> Clk B) : Clk B :=
  fun c => let '(a, c') := m c in k a c'.

Notation "x <- m ;; k" := (bind m (fun x => k))
  (at level 100, m at next level, right associativity).

Definition utcnow : Clk datetime.t :=
  fun c => (c O, fun n => c (S n)).

(** The value computed under a clock, the clock left behind dropped. *)
Definition eval {A} (m : Clk A) (c : Clock) : A := fst (m c).

(** ** The dataclasses *)

Module OrderDetails.
Record t : Type := mk {
  order_id : string;
  product_name : string;
  quantity : Z;
  priority : string;
  destination : string;
  required_date : option string;
  notes : string
}.
End OrderDetails.

Module SupplierResponse.
Record t : Type := mk {
  available : bool;
  supplier_id : string;
  unit_price : float;
  lead_time_days : Z;
  capacity : Z;
  notes : string
}.
End SupplierResponse.

Module InventoryResponse.
Record t : Type := mk {
  in_stock : Z;
  reserved : Z;
  available : Z;
  reorder_point : Z;
  warehouse_location : string;
  last_updated : string
}.

(** The constructor call without [last_updated]: the default factory
    reads the clock. *)
Definition new (in_stock reserved available reorder_point : Z)
    (warehouse_location : string) : Clk t :=
  now <- utcnow ;;
  ret (mk in_stock reserved available reorder_point warehouse_location
          (datetime.isoformat now)).
End InventoryResponse.

Module LogisticsResponse.
Record t : Type := mk {
  carrier : string;
  shipping_cost : float;
  estimated_delivery : string;
  tracking_number : option string;
  shipping_method : string
}.

(** The constructor call without [tracking_number], which defaults to [None]. *)
Definition new (carrier : string) (shipping_cost : float)
    (estimated_delivery shipping_method : string) : t :=
  mk carrier shipping_cost estimated_delivery None shipping_method.
End LogisticsResponse.

Module SupplyChainResult.
Record t : Type := mk {
  order_id : string;
  status : string;
  supplier : option SupplierResponse.t;
  inventory : option InventoryResponse.t;
  logistics : option LogisticsResponse.t;
  coordinator_summary : string;
  recommendations : list string;
  timestamp : string
}.

(** The constructor call without [timestamp]: the default factory reads
    the clock. *)
Definition new (order_id status : string)
    (supplier : option SupplierResponse.t)
    (inventory : option InventoryResponse.t)
    (logistics : option LogisticsResponse.t)
    (coordinator_summary : string) (recommendations : list string) : Clk t :=
  now <- utcnow ;;
  ret (mk order_id status supplier inventory logistics coordinator_summary
          recommendations (datetime.isoformat now)).
End SupplyChainResult.

(** ** MockSupplyChainAgentSystem.process_order *)

Definition process_order (order : OrderDetails.t) : Clk SupplyChainResult.t :=
  (* Determine availability based on quantity *)
  let available_qty := 500 in
  let reserved_qty := 100 in
  let in_stock := available_qty + reserved_qty in
  (* Calculate if order can be fulfilled *)
  let can_fulfill := OrderDetails.quantity order <=? in_stock - reserved_qty in
  (* Determine shipping based on priority *)
  let '(shipping_cost, shipping_method, lead_time) :=
    if String.eqb (OrderDetails.priority order) "urgent" then
      (75%float, "overnight", 1)
    else if String.eqb (OrderDetails.priority order) "high" then
      (45%float, "express", 2)
    else
      (25%float, "standard", 5) in
  (* Calculate unit price based on quantity (volume discount) *)
  let base_price :=
    if OrderDetails.quantity order >=? 100 then 22.5%float
    else if OrderDetails.quantity order >=? 50 then 25%float
    else if OrderDetails.quantity order >=? 10 then 27.5%float
    else 30%float in
  let status := if can_fulfill then "CONFIRMED" else "PENDING" in
  let recommendations := @nil string in
  let recommendations :=
    if negb can_fulfill then
      Py.append recommendations
        ("Insufficient stock. Consider reducing order quantity to "
           +:+ Py.str_of_int (in_stock - reserved_qty) +:+ " "
           +:+ "or placing a backorder.")
    else recommendations in
  let recommendations :=
    if String.eqb (OrderDetails.priority order) "urgent"
       && (OrderDetails.quantity order >? 100) then
      Py.append recommendations
        "Large urgent orders may require split shipments from multiple warehouses."
    else recommendations in
  let recommendations :=
    if PrimFloat.ltb 25%float base_price then
      Py.append recommendations
        ("Consider increasing order to 50 units for volume pricing ($"
           +:+ Py.format_2f 25%float +:+ "/unit).")
    else recommendations in
  let supplier :=
    SupplierResponse.mk
      true
      ("SUP-" +:+ Py.format_right_align "0"%char 3
                    (Py.upper (Py.slice_to 3 (OrderDetails.product_name order))))
      base_price
      lead_time
      1000
      ((if negb (String.eqb (OrderDetails.priority order) "low")
        then "Preferred" else "Standard") +:+ " supplier tier") in
  inventory <- InventoryResponse.new in_stock reserved_qty (in_stock - reserved_qty)
                 200 "WH-EAST-01" ;;
  now <- utcnow ;;
  let logistics :=
    LogisticsResponse.new "FastShip Logistics" shipping_cost
      (datetime.isoformat now) shipping_method in
  SupplyChainResult.new
    (OrderDetails.order_id order)
    status
    (Some supplier)
    (Some inventory)
    (Some logistics)
    ("Order " +:+ OrderDetails.order_id order +:+ " for "
       +:+ Py.str_of_int (OrderDetails.quantity order) +:+ "x "
       +:+ OrderDetails.product_name order +:+ " "
       +:+ "has been " +:+ Py.lower status +:+ ". "
       +:+ (if can_fulfill then "Stock is available for immediate fulfillment."
            else "Stock shortage requires supplier coordination.") +:+ " "
       +:+ "Shipping via " +:+ shipping_method +:+ " to "
       +:+ Py.str_or (OrderDetails.destination order) "default destination" +:+ ".")
    recommendations.

(** ** process_supply_chain_order: the order built from a request *)

(** The keyword arguments handed to [OrderDetails(...)]: whatever values
    the dictionary holds. *)
Module OrderArgs.
Record t : Type := mk {
  order_id : Py.PyVal;
  product_name : Py.PyVal;
  quantity : Py.PyVal;
  priority : Py.PyVal;
  destination : Py.PyVal;
  required_date : Py.PyVal;
  notes : Py.PyVal
}.

(** The order at its annotated types, when every argument is of the
    annotated type of its field. *)
Definition typed (a : t) : option OrderDetails.t :=
  match order_id a, product_name a, quantity a, priority a, destination a, notes a with
  | Py.PyStr i, Py.PyStr p, Py.PyInt q, Py.PyStr pr, Py.PyStr d, Py.PyStr n =>
      match required_date a with
      | Py.PyNone => Some (OrderDetails.mk i p q pr d None n)
      | Py.PyStr rd => Some (OrderDetails.mk i p q pr d (Some rd) n)
      | _ => None
      end
  | _, _, _, _, _, _ => None
  end.
End OrderArgs.

(** The [OrderDetails(...)] expression of [process_supply_chain_order].
    The default of [order_id] is an argument of [get], so the clock is read
    whether or not the key is present; [get("required_date")] has the
    default [None]. *)
Definition order_of_request (order_data : gmap string Py.PyVal) : Clk OrderArgs.t :=
  now <- utcnow ;;
  ret (OrderArgs.mk
         (Py.dict_get order_data "order_id"
            (Py.PyStr ("ORD-" +:+ datetime.strftime_YmdHMS now)))
         (Py.dict_get order_data "product_name" (Py.PyStr "Unknown Product"))
         (Py.dict_get order_data "quantity" (Py.PyInt 1))
         (Py.dict_get order_data "priority" (Py.PyStr "normal"))
         (Py.dict_get order_data "destination" (Py.PyStr ""))
         (Py.dict_get order_data "required_date" Py.PyNone)
         (Py.dict_get order_data "notes" (Py.PyStr ""))).

(** The keys [order_of_request] looks up. *)
Definition recognized_fields : list string :=
  ["order_id"; "product_name"; "quantity"; "priority"; "destination";
   "required_date"; "notes"].

(** ** SupplyChainAgentSystem: the evaluator driven by the agents *)

(** What [team.run_stream] yields: text messages of the agents, and other
    events. *)
Inductive StreamItem : Type :=
| TextMessage (source content : string)
| OtherEvent.

(** How the iteration over the stream ends: the stream is exhausted, or
    creating the team or fetching the next item raises. *)
Inductive StreamEnd : Type :=
| Exhausted
| Raised (e : Py.PyError).

(** One run of the team on a task: the items yielded, then the end. *)
Definition TeamRun : Type := (list StreamItem * StreamEnd)%type.

Module SupplyChainAgentSystem.

(** The state of the loop of [_parse_agent_responses]:
    [(coordinator_msg, status)]. *)
Definition loop_state : Type := (string * string)%type.

(** One turn of [for msg in messages].  The test on [upper] is the code's
    for a content in ASCII text. *)
Definition parse_step (st : loop_state) (msg : gmap string Py.PyVal)
    : Py.Raises loop_state :=
  match msg !! "source" with
  | None => Py.Raise (Py.KeyError "source")
  | Some source =>
      if Py.eq_str source "CoordinatorAgent" then
        match msg !! "content" with
        | None => Py.Raise (Py.KeyError "content")
        | Some (Py.PyStr coordinator_msg) =>
            if Py.contains "CONFIRMED" (Py.upper coordinator_msg) then
              Py.Ok (coordinator_msg, "CONFIRMED")
            else if Py.contains "REJECTED" (Py.upper coordinator_msg) then
              Py.Ok (coordinator_msg, "REJECTED")
            else Py.Ok (coordinator_msg, snd st)
        | Some _ => Py.Raise (Py.AttributeError "upper")
        end
      else Py.Ok st
  end.

Fixpoint parse_loop (messages : list (gmap string Py.PyVal)) (st : loop_state)
    : Py.Raises loop_state :=
  match messages with
  | [] => Py.Ok st
  | msg :: rest =>
      match parse_step st msg with
      | Py.Ok st' => parse_loop rest st'
      | Py.Raise e => Py.Raise e
      end
  end.

Definition _parse_agent_responses (order_id : string)
    (messages : list (gmap string Py.PyVal)) : Clk (Py.Raises SupplyChainResult.t) :=
  (* Find coordinator's final message *)
  match parse_loop messages ("", "PENDING") with
  | Py.Raise e => ret (Py.Raise e)
  | Py.Ok (coordinator_msg, status) =>
      (* Extract recommendations from coordinator message *)
      let recommendations :=
        if Py.contains "recommend" (Py.lower coordinator_msg) then
          ["Verify supplier capacity before confirming";
           "Consider expedited shipping for high priority orders";
           "Monitor inventory levels for future orders"]
        else [] in
      let supplier :=
        SupplierResponse.mk true "SUP-001" 25.5%float 3 1000
          "Reliable supplier with good track record" in
      inventory <- InventoryResponse.new 500 100 400 200 "WH-EAST-01" ;;
      now <- utcnow ;;
      let logistics :=
        LogisticsResponse.new "FastShip Logistics" 45%float
          (datetime.isoformat now)
          (if Py.contains "urgent" (Py.lower coordinator_msg)
           then "express" else "standard") in
      result <- SupplyChainResult.new
                  order_id status (Some supplier) (Some inventory) (Some logistics)
                  (Py.str_or coordinator_msg
                     "Order processed through multi-agent coordination")
                  recommendations ;;
      ret (Py.Ok result)
  end.

(** The task message of [process_order]. *)
Definition task_message (order : OrderDetails.t) : string :=
  "Process supply chain order:" +:+ Py.nl +:+ Py.nl
  +:+ "Order ID: " +:+ OrderDetails.order_id order +:+ Py.nl
  +:+ "Product: " +:+ OrderDetails.product_name order +:+ Py.nl
  +:+ "Quantity: " +:+ Py.str_of_int (OrderDetails.quantity order) +:+ Py.nl
  +:+ "Priority: " +:+ OrderDetails.priority order +:+ Py.nl
  +:+ "Destination: " +:+ OrderDetails.destination order +:+ Py.nl
  +:+ "Required Date: "
  +:+ Py.str_or (match OrderDetails.required_date order with
                 | Some d => d
                 | None => ""
                 end) "Not specified" +:+ Py.nl
  +:+ "Notes: " +:+ Py.str_or (OrderDetails.notes order) "None" +:+ Py.nl +:+ Py.nl
  +:+ "Each agent should provide their assessment. Coordinator should finalize with status and recommendations."
  +:+ Py.nl
  +:+ "End with " +:+ Py.dquote +:+ "COORDINATION_COMPLETE" +:+ Py.dquote
  +:+ " when finished.".

(** The loop over the stream: a text message is appended as a dictionary,
    anything else is passed over. *)
Definition collect_messages (stream : list StreamItem) : list (gmap string Py.PyVal) :=
  fold_left
    (fun messages message =>
       match message with
       | TextMessage source content =>
           Py.append messages
             (<["source" := Py.PyStr source]> (<["content" := Py.PyStr content]> ∅))
       | OtherEvent => messages
       end)
    stream [].

(** [process_order], the run of the team being a parameter.  Nothing
    catches an exception of the stream: it leaves the loop and
    [process_order], and the messages collected so far are dropped. *)
Definition process_order (run_stream : string -> TeamRun)
    (order : OrderDetails.t) : Clk (Py.Raises SupplyChainResult.t) :=
  let task := task_message order in
  let '(stream, ending) := run_stream task in
  let messages := collect_messages stream in
  match ending with
  | Raised e => ret (Py.Raise e)
  | Exhausted => _parse_agent_responses (OrderDetails.order_id order) messages
  end.

End SupplyChainAgentSystem.

(** ** The global agent system *)

(** The instance held by [_agent_system]: one of the two classes. *)
Inductive AgentSystem : Type :=
| MockSystem
| LLMSystem.

(** [get_agent_system(use_mock)], the global [_agent_system] passed in and
    handed back. *)
Definition get_agent_system (use_mock : bool) (_agent_system : option AgentSystem)
    : AgentSystem * option AgentSystem :=
  match _agent_system with
  | None =>
      let created := if use_mock then MockSystem else LLMSystem in
      (created, Some created)
  | Some s => (s, Some s)
  end.

(** [agent_system.process_order(order)] on the instance at hand. *)
Definition agent_process_order (run_stream : string -> TeamRun)
    (agent_system : AgentSystem) (order : OrderDetails.t)
    : Clk (Py.Raises SupplyChainResult.t) :=
  match agent_system with
  | MockSystem => result <- process_order order ;; ret (Py.Ok result)
  | LLMSystem => SupplyChainAgentSystem.process_order run_stream order
  end.

(** The dictionary [process_supply_chain_order] returns for a result. *)
Definition result_to_dict (result : SupplyChainResult.t) : Py.PyObj :=
  let opt {A} (f : A -> Py.PyObj) (o : option A) : Py.PyObj :=
    match o with Some a => f a | None => Py.ONone end in
  let supplier := SupplyChainResult.supplier result in
  let inventory := SupplyChainResult.inventory result in
  let logistics := SupplyChainResult.logistics result in
  Py.ODict
    [("order_id", Py.OStr (SupplyChainResult.order_id result));
     ("status", Py.OStr (SupplyChainResult.status result));
     ("timestamp", Py.OStr (SupplyChainResult.timestamp result));
     ("supplier", Py.ODict
        [("available",
          match supplier with
          | Some s => Py.OBool (SupplierResponse.available s)
          | None => Py.OBool false
          end);
         ("supplier_id", opt (fun s => Py.OStr (SupplierResponse.supplier_id s)) supplier);
         ("unit_price", opt (fun s => Py.OFloat (SupplierResponse.unit_price s)) supplier);
         ("lead_time_days",
          opt (fun s => Py.OInt (SupplierResponse.lead_time_days s)) supplier);
         ("capacity", opt (fun s => Py.OInt (SupplierResponse.capacity s)) supplier);
         ("notes", opt (fun s => Py.OStr (SupplierResponse.notes s)) supplier)]);
     ("inventory", Py.ODict
        [("in_stock",
          match inventory with
          | Some i => Py.OInt (InventoryResponse.in_stock i) | None => Py.OInt 0
          end);
         ("reserved",
          match inventory with
          | Some i => Py.OInt (InventoryResponse.reserved i) | None => Py.OInt 0
          end);
         ("available",
          match inventory with
          | Some i => Py.OInt (InventoryResponse.available i) | None => Py.OInt 0
          end);
         ("reorder_point",
          match inventory with
          | Some i => Py.OInt (InventoryResponse.reorder_point i) | None => Py.OInt 0
          end);
         ("warehouse_location",
          opt (fun i => Py.OStr (InventoryResponse.warehouse_location i)) inventory);
         ("last_updated",
          opt (fun i => Py.OStr (InventoryResponse.last_updated i)) inventory)]);
     ("logistics", Py.ODict
        [("carrier", opt (fun l => Py.OStr (LogisticsResponse.carrier l)) logistics);
         ("shipping_cost",
          opt (fun l => Py.OFloat (LogisticsResponse.shipping_cost l)) logistics);
         ("estimated_delivery",
          opt (fun l => Py.OStr (LogisticsResponse.estimated_delivery l)) logistics);
         ("shipping_method",
          opt (fun l => Py.OStr (LogisticsResponse.shipping_method l)) logistics)]);
     ("coordinator_summary", Py.OStr (SupplyChainResult.coordinator_summary result));
     ("recommendations",
      Py.OList (map Py.OStr (SupplyChainResult.recommendations result)))].

(** [process_supply_chain_order] from the order it has built onwards: the
    agent system is fetched with [use_mock=True], evaluates the order, and
    the result is returned as a dictionary.  The global is handed back also
    when the evaluation raises. *)
Definition process_built_order (run_stream : string -> TeamRun)
    (order : OrderDetails.t) (_agent_system : option AgentSystem)
    : Clk (Py.Raises Py.PyObj * option AgentSystem) :=
  let '(agent_system, _agent_system) := get_agent_system true _agent_system in
  outcome <- agent_process_order run_stream agent_system order ;;
  match outcome with
  | Py.Ok result => ret (Py.Ok (result_to_dict result), _agent_system)
  | Py.Raise e => ret (Py.Raise e, _agent_system)
  end.

(** ** Vocabulary of the statements *)

(** The fields of a result, read through its optional sub-records. *)
Definition unit_price_of (r : SupplyChainResult.t) : option float :=
  SupplierResponse.unit_price <$> SupplyChainResult.supplier r.

Definition lead_time_days_of (r : SupplyChainResult.t) : option Z :=
  SupplierResponse.lead_time_days <$> SupplyChainResult.supplier r.

Definition supplier_id_of (r : SupplyChainResult.t) : option string :=
  SupplierResponse.supplier_id <$> SupplyChainResult.supplier r.

Definition shipping_cost_of (r : SupplyChainResult.t) : option float :=
  LogisticsResponse.shipping_cost <$> SupplyChainResult.logistics r.

Definition shipping_method_of (r : SupplyChainResult.t) : option string :=
  LogisticsResponse.shipping_method <$> SupplyChainResult.logistics r.

(** The comparison [unit_price > 25.00] on the unit price of a result. *)
Definition unit_price_above_25 (r : SupplyChainResult.t) : bool :=
  match unit_price_of r with
  | Some p => PrimFloat.ltb 25%float p
  | None => false
  end.

(** The three messages of the recommendation step, as the specification
    quotes them. *)
Definition msg_insufficient_stock : string :=
  "Insufficient stock. Consider reducing order quantity to 500 or placing a backorder.".

Definition msg_split_shipments : string :=
  "Large urgent orders may require split shipments from multiple warehouses.".

Definition msg_volume_pricing : string :=
  "Consider increasing order to 50 units for volume pricing ($25.00/unit).".

(** A message kept under a condition. *)
Definition keep_if (b : bool) (m : string) : list string :=
  if b then [m] else [].

(** The row of the shipping table selected by a priority. *)
Definition shipping_row (priority : string) : float * string * Z :=
  if String.eqb priority "urgent" then (75%float, "overnight", 1)
  else if String.eqb priority "high" then (45%float, "express", 2)
  else (25%float, "standard", 5).

(** The tier of the price table selected by a quantity. *)
Definition price_tier (quantity : Z) : float :=
  if quantity >=? 100 then 22.5%float
  else if quantity >=? 50 then 25%float
  else if quantity >=? 10 then 27.5%float
  else 30%float.

(** The supplier identifier as the specification words it: the upper-cased
    prefix with the zeros appended on its right up to width 3. *)
Definition supplier_id_right_padded (product_name : string) : string :=
  "SUP-" +:+ Py.ljust 3 "0"%char (Py.upper (Py.slice_to 3 product_name)).

(** The supplier identifier with the zeros in front of the upper-cased
    prefix. *)
Definition supplier_id_left_padded (product_name : string) : string :=
  "SUP-" +:+ Py.repeat_char "0"%char (3 - String.length product_name)
         +:+ Py.upper (Py.slice_to 3 product_name).

(** ** Vocabulary of the statements about the agent-driven path *)

(** The message dictionary [{"source": "CoordinatorAgent", "content": s}]. *)
Definition coordinator_message (s : string) : gmap string Py.PyVal :=
  <["source" := Py.PyStr "CoordinatorAgent"]> (<["content" := Py.PyStr s]> ∅).

(** The message dictionary of a text message of the stream. *)
Definition text_message_dict (source content : string) : gmap string Py.PyVal :=
  <["source" := Py.PyStr source]> (<["content" := Py.PyStr content]> ∅).

(** A message whose source is the coordinator. *)
Definition is_coordinator (msg : gmap string Py.PyVal) : bool :=
  match msg !! "source" with
  | Some source => Py.eq_str source "CoordinatorAgent"
  | None => false
  end.

(** A message the parser can read: it has a source, and when the source is
    the coordinator it has a content that is a string. *)
Definition well_formed_message (msg : gmap string Py.PyVal) : bool :=
  match msg !! "source" with
  | None => false
  | Some source =>
      if Py.eq_str source "CoordinatorAgent" then
        match msg !! "content" with
        | Some (Py.PyStr _) => true
        | _ => false
        end
      else true
  end.

Definition parsed_recommendations : list string :=
  ["Verify supplier capacity before confirming";
   "Consider expedited shipping for high priority orders";
   "Monitor inventory levels for future orders"].

Definition default_summary : string :=
  "Order processed through multi-agent coordination".

(** The result [_parse_agent_responses] builds from the state its loop
    ends in, under a clock. *)
Definition parsed_result (order_id : string) (c : Clock)
    (coordinator_msg status : string) : SupplyChainResult.t :=
  SupplyChainResult.mk
    order_id status
    (Some (SupplierResponse.mk true "SUP-001" 25.5%float 3 1000
             "Reliable supplier with good track record"))
    (Some (InventoryResponse.mk 500 100 400 200 "WH-EAST-01"
             (datetime.isoformat (c 0%nat))))
    (Some (LogisticsResponse.mk "FastShip Logistics" 45%float
             (datetime.isoformat (c 1%nat)) None
             (if Py.contains "urgent" (Py.lower coordinator_msg)
              then "express" else "standard")))
    (if String.eqb coordinator_msg "" then default_summary else coordinator_msg)
    (if Py.contains "recommend" (Py.lower coordinator_msg)
     then parsed_recommendations else [])
    (datetime.isoformat (c 2%nat)).

(** A sequence of calls [get_agent_system(flag)], the global threaded
    through them: the instances returned and the global left behind. *)
Fixpoint run_calls (flags : list bool) (_agent_system : option AgentSystem)
    : list AgentSystem * option AgentSystem :=
  match flags with
  | [] => ([], _agent_system)
  | flag :: rest =>
      let '(s, g) := get_agent_system flag _agent_system in
      let '(ss, g') := run_calls rest g in
      (s :: ss, g')
  end.

(** A result with the tracking number of its logistics quote forgotten. *)
Definition drop_tracking (r : SupplyChainResult.t) : SupplyChainResult.t :=
  SupplyChainResult.mk
    (SupplyChainResult.order_id r) (SupplyChainResult.status r)
    (SupplyChainResult.supplier r) (SupplyChainResult.inventory r)
    (match SupplyChainResult.logistics r with
     | Some l =>
         Some (LogisticsResponse.mk
                 (LogisticsResponse.carrier l) (LogisticsResponse.shipping_cost l)
                 (LogisticsResponse.estimated_delivery l) None
                 (LogisticsResponse.shipping_method l))
     | None => None
     end)
    (SupplyChainResult.coordinator_summary r)
    (SupplyChainResult.recommendations r)
    (SupplyChainResult.timestamp r).

(** The keys of a dictionary, in order. *)
Definition obj_keys (o : Py.PyObj) : list string :=
  match o with
  | Py.ODict items => map fst items
  | _ => []
  end.

(** [d[k1][k2]] *)
Definition obj_get2 (o : Py.PyObj) (k1 k2 : string) : option Py.PyObj :=
  match Py.obj_get o k1 with
  | Some inner => Py.obj_get inner k2
  | None => None
  end.

(** A clock reading as [datetime] allows it, with a four-digit year. *)
Definition valid_reading (dt : datetime.t) : Prop :=
  1000 <= datetime.year dt <= 9999
  /\ 1 <= datetime.month dt <= 12
  /\ 1 <= datetime.day dt <= 31
  /\ 0 <= datetime.hour dt <= 23
  /\ 0 <= datetime.minute dt <= 59
  /\ 0 <= datetime.second dt <= 59.

(** Two readings within the same second. *)
Definition same_second (a b : datetime.t) : Prop :=
  datetime.year a = datetime.year b
  /\ datetime.month a = datetime.month b
  /\ datetime.day a = datetime.day b
  /\ datetime.hour a = datetime.hour b
  /\ datetime.minute a = datetime.minute b
  /\ datetime.second a = datetime.second b.

(** The number a string of decimal digits writes. *)
Fixpoint digits_value_from (acc : Z) (s : string) : Z :=
  match s with
  | EmptyString => acc
  | String c rest => digits_value_from (10 * acc + (Z.of_N (N_of_ascii c) - 48)) rest
  end.

Definition digits_value (s : string) : Z := digits_value_from 0 s.

(** A check of every number below [n]. *)
Fixpoint all_below (n : nat) (P : Z -> bool) : bool :=
  match n with
  | O => true
  | S k => P (Z.of_nat k) && all_below k P
  end.

(** The check that a number, zero-padded to a width, has that many
    characters, all of them digits, and reads back as itself. *)
Definition pads_back (width : nat) (z : Z) : bool :=
  Nat.eqb (String.length (datetime.zero_pad width z)) width
  && Py.all_digits (datetime.zero_pad width z)
  && (digits_value (datetime.zero_pad width z) =? z).

(** ** Sample data *)

Definition clock0 : Clock :=
  fun n => datetime.mk 2024 1 15 10 30 (Z.of_nat n) 0.

Definition clock1 : Clock :=
  fun n => datetime.mk 2025 12 31 23 59 (Z.of_nat n + 7) 123456.

(** A clock whose readings fall in the seconds of [clock0], later within
    each second. *)
Definition clock0_later : Clock :=
  fun n => datetime.mk 2024 1 15 10 30 (Z.of_nat n) 999999.

Definition widget_order (q : Z) (prio : string) : OrderDetails.t :=
  OrderDetails.mk "ORD-001" "Widget" q prio "New York" None "".

Definition order_a : OrderDetails.t :=
  OrderDetails.mk "ORD-7" "Gadget" 620 "urgent" "" (Some "2024-02-01") "fragile".

Definition order_b : OrderDetails.t :=
  OrderDetails.mk "ORD-7" "Gadget" 620 "urgent" "" None "".

Definition short_name_order : OrderDetails.t :=
  OrderDetails.mk "ORD-9" "ab" 1 "normal" "" None "".

Definition sample_request : gmap string Py.PyVal :=
  <["quantity" := Py.PyInt 7]> (<["colour" := Py.PyStr "red"]> ∅).

(** ** Running the evaluator *)

Ltac run_order :=
  unfold eval, process_order, bind, utcnow, ret,
    InventoryResponse.new, SupplyChainResult.new, LogisticsResponse.new,
    Py.append; cbn [fst snd].

Ltac split_priority o :=
  destruct (String.eqb (OrderDetails.priority o) "urgent") eqn:?Hurgent;
  destruct (String.eqb (OrderDetails.priority o) "high") eqn:?Hhigh.

Ltac split_tiers o :=
  destruct (Z.geb_spec (OrderDetails.quantity o) 100);
  destruct (Z.geb_spec (OrderDetails.quantity o) 50);
  destruct (Z.geb_spec (OrderDetails.quantity o) 10); try lia.

(** Case analysis on every comparison of a quantity with a literal. *)
Ltac split_comparisons :=
  repeat match goal with
    | |- context [?a <=? ?b] => destruct (Z.leb_spec a b)
    | |- context [?a <? ?b] => destruct (Z.ltb_spec a b)
    | |- context [?a >=? ?b] => destruct (Z.geb_spec a b)
    | |- context [?a >? ?b] => destruct (Z.gtb_spec a b)
    end; try lia.

(** ** Facts about the built-ins *)

Lemma format_2f_25 : Py.format_2f 25%float = "25.00".
Proof. vm_compute. reflexivity. Qed.

Lemma str_or_eqb (a b : string) :
  Py.str_or a b = if String.eqb a "" then b else a.
Proof. destruct a; reflexivity. Qed.

Lemma length_app_str (s1 s2 : string) :
  String.length (s1 +:+ s2) = (String.length s1 + String.length s2)%nat.
Proof. induction s1 as [| a s1 IH]; simpl; [reflexivity | now f_equal]. Qed.

Lemma length_str_map (f : ascii -> ascii) (s : string) :
  String.length (Py.str_map f s) = String.length s.
Proof. induction s as [| a s IH]; cbn; [reflexivity | now rewrite IH]. Qed.

Lemma length_repeat_char (a : ascii) (n : nat) :
  String.length (Py.repeat_char a n) = n.
Proof. induction n as [| n IH]; cbn; [reflexivity | now rewrite IH]. Qed.

Lemma length_slice_to (n : nat) (s : string) :
  String.length (Py.slice_to n s) = Nat.min n (String.length s).
Proof.
  unfold Py.slice_to. revert s.
  induction n as [| n IH]; intros [| a s]; cbn; try reflexivity.
  now rewrite IH.
Qed.

(** ** The result of one evaluation, field by field *)

Section Run.

Variable o : OrderDetails.t.
Variable c : Clock.

(** The result in closed form.  The three clock readings are, in this
    order, [last_updated], [estimated_delivery] and [timestamp]. *)
Lemma process_order_run :
  eval (process_order o) c =
  SupplyChainResult.mk
    (OrderDetails.order_id o)
    (if OrderDetails.quantity o <=? 500 then "CONFIRMED" else "PENDING")
    (Some (SupplierResponse.mk
             true
             ("SUP-" +:+ Py.format_right_align "0"%char 3
                           (Py.upper (Py.slice_to 3 (OrderDetails.product_name o))))
             (price_tier (OrderDetails.quantity o))
             (snd (shipping_row (OrderDetails.priority o)))
             1000
             ((if negb (String.eqb (OrderDetails.priority o) "low")
               then "Preferred" else "Standard") +:+ " supplier tier")))
    (Some (InventoryResponse.mk 600 100 500 200 "WH-EAST-01"
             (datetime.isoformat (c 0%nat))))
    (Some (LogisticsResponse.mk
             "FastShip Logistics"
             (fst (fst (shipping_row (OrderDetails.priority o))))
             (datetime.isoformat (c 1%nat))
             None
             (snd (fst (shipping_row (OrderDetails.priority o))))))
    ("Order " +:+ OrderDetails.order_id o
       +:+ " for " +:+ Py.str_of_int (OrderDetails.quantity o)
       +:+ "x " +:+ OrderDetails.product_name o
       +:+ " has been "
       +:+ (if OrderDetails.quantity o <=? 500 then "confirmed" else "pending")
       +:+ ". "
       +:+ (if OrderDetails.quantity o <=? 500
            then "Stock is available for immediate fulfillment."
            else "Stock shortage requires supplier coordination.")
       +:+ " Shipping via " +:+ snd (fst (shipping_row (OrderDetails.priority o)))
       +:+ " to "
       +:+ (if String.eqb (OrderDetails.destination o) ""
            then "default destination" else OrderDetails.destination o)
       +:+ ".")
    (keep_if (500 <? OrderDetails.quantity o) msg_insufficient_stock
     ++ keep_if (String.eqb (OrderDetails.priority o) "urgent"
                 && (100 <? OrderDetails.quantity o)) msg_split_shipments
     ++ keep_if (OrderDetails.quantity o <? 50) msg_volume_pricing)%list
    (datetime.isoformat (c 2%nat)).
Proof.
  run_order. rewrite str_or_eqb, format_2f_25.
  unfold shipping_row, price_tier, keep_if.
  change (500 + 100 - 100) with 500. change (500 + 100) with 600.
  split_priority o; cbn [fst snd andb negb]; split_comparisons; reflexivity.
Qed.

Lemma status_run :
  SupplyChainResult.status (eval (process_order o) c) =
  if OrderDetails.quantity o <=? 500 then "CONFIRMED" else "PENDING".
Proof. rewrite process_order_run. reflexivity. Qed.

Lemma unit_price_run :
  unit_price_of (eval (process_order o) c)
  = Some (price_tier (OrderDetails.quantity o)).
Proof. rewrite process_order_run. reflexivity. Qed.

Lemma shipping_run :
  let r := eval (process_order o) c in
  let row := shipping_row (OrderDetails.priority o) in
  shipping_cost_of r = Some (fst (fst row))
  /\ shipping_method_of r = Some (snd (fst row))
  /\ lead_time_days_of r = Some (snd row).
Proof. cbv zeta. rewrite process_order_run. repeat split; reflexivity. Qed.

Lemma unit_price_above_25_run :
  unit_price_above_25 (eval (process_order o) c) = (OrderDetails.quantity o <? 50).
Proof.
  unfold unit_price_above_25. rewrite unit_price_run. unfold price_tier.
  split_comparisons; reflexivity.
Qed.

Lemma recommendations_run :
  SupplyChainResult.recommendations (eval (process_order o) c) =
    (keep_if (500 <? OrderDetails.quantity o) msg_insufficient_stock
     ++ keep_if (String.eqb (OrderDetails.priority o) "urgent"
                 && (100 <? OrderDetails.quantity o)) msg_split_shipments
     ++ keep_if (OrderDetails.quantity o <? 50) msg_volume_pricing)%list.
Proof. rewrite process_order_run. reflexivity. Qed.

End Run.

Lemma shipping_row_cases (priority : string) :
  (priority = "urgent" -> shipping_row priority = (75%float, "overnight", 1))
  /\ (priority = "high" -> shipping_row priority = (45%float, "express", 2))
  /\ (priority <> "urgent" -> priority <> "high" ->
      shipping_row priority = (25%float, "standard", 5)).
Proof.
  unfold shipping_row. repeat split.
  - intros ->. reflexivity.
  - intros ->. reflexivity.
  - intros Hu Hh. apply String.eqb_neq in Hu, Hh. rewrite Hu, Hh. reflexivity.
Qed.

(** ** The claims *)

(** Claim C1.  For every order the status of the result is "CONFIRMED"
    exactly when the quantity is at most 500, which is the in_stock 600
    minus the reserved 100 of the returned inventory, and "PENDING"
    otherwise.  A zero or negative quantity gives "CONFIRMED": the evaluator
    is a total function and has no case of its own for such a quantity. *)
Theorem status_confirmed_iff_quantity_le_500 :
  forall (o : OrderDetails.t) (c : Clock),
    let r := eval (process_order o) c in
    (SupplyChainResult.status r = "CONFIRMED" <-> OrderDetails.quantity o <= 500)
    /\ (SupplyChainResult.status r = "PENDING" <-> 500 < OrderDetails.quantity o)
    /\ (exists inv : InventoryResponse.t,
           SupplyChainResult.inventory r = Some inv
           /\ InventoryResponse.in_stock inv = 600
           /\ InventoryResponse.reserved inv = 100
           /\ (SupplyChainResult.status r = "CONFIRMED" <->
               OrderDetails.quantity o
               <= InventoryResponse.in_stock inv - InventoryResponse.reserved inv))
    /\ (OrderDetails.quantity o <= 0 -> SupplyChainResult.status r = "CONFIRMED").
Proof.
  intros o c r. subst r. rewrite process_order_run.
  cbn [SupplyChainResult.status SupplyChainResult.inventory].
  destruct (Z.leb_spec (OrderDetails.quantity o) 500) as [Hle | Hgt].
  all: split; [| split; [| split]].
  all: try (eexists; split; [reflexivity |];
            cbn [InventoryResponse.in_stock InventoryResponse.reserved];
            split; [reflexivity | split; [reflexivity |]]).
  all: try split; intros; try reflexivity; try discriminate; lia.
Qed.

Lemma status_confirmed_iff_quantity_le_500_witness :
  SupplyChainResult.status (eval (process_order (widget_order (-3) "normal")) clock0)
  = "CONFIRMED".
Proof.
  apply (status_confirmed_iff_quantity_le_500 (widget_order (-3) "normal") clock0).
  cbn. lia.
Defined.

(** Claim C2.  The unit price of the supplier quote depends on the quantity
    alone: 22.50 from 100 units on, 25.00 from 50 to 99, 27.50 from 10 to
    49 and 30.00 below 10, each lower bound included.  A larger quantity
    never has a higher unit price. *)
Theorem unit_price_tiers_and_monotone :
  (forall (o : OrderDetails.t) (c : Clock),
      let q := OrderDetails.quantity o in
      let p := unit_price_of (eval (process_order o) c) in
      (100 <= q -> p = Some 22.5%float)
      /\ (50 <= q < 100 -> p = Some 25%float)
      /\ (10 <= q < 50 -> p = Some 27.5%float)
      /\ (q < 10 -> p = Some 30%float))
  /\ (forall (o1 o2 : OrderDetails.t) (c1 c2 : Clock),
         OrderDetails.quantity o1 = OrderDetails.quantity o2 ->
         unit_price_of (eval (process_order o1) c1)
         = unit_price_of (eval (process_order o2) c2))
  /\ (forall (o1 o2 : OrderDetails.t) (c1 c2 : Clock) (p1 p2 : float),
         unit_price_of (eval (process_order o1) c1) = Some p1 ->
         unit_price_of (eval (process_order o2) c2) = Some p2 ->
         OrderDetails.quantity o1 <= OrderDetails.quantity o2 ->
         PrimFloat.leb p2 p1 = true).
Proof.
  split; [| split].
  - intros o c q p. subst q p. rewrite unit_price_run. unfold price_tier.
    split_tiers o; repeat split; intros; try reflexivity; lia.
  - intros o1 o2 c1 c2 Hq. rewrite !unit_price_run, Hq. reflexivity.
  - intros o1 o2 c1 c2 p1 p2. rewrite !unit_price_run.
    intros [= <-] [= <-] Hle. unfold price_tier.
    split_tiers o1; split_tiers o2; reflexivity.
Qed.

Lemma unit_price_tiers_and_monotone_witness :
  unit_price_of (eval (process_order (widget_order 100 "normal")) clock0) = Some 22.5%float
  /\ unit_price_of (eval (process_order (widget_order 50 "normal")) clock0) = Some 25%float
  /\ unit_price_of (eval (process_order (widget_order 10 "normal")) clock0) = Some 27.5%float
  /\ unit_price_of (eval (process_order (widget_order 5 "normal")) clock0) = Some 30%float
  /\ PrimFloat.leb 22.5%float 30%float = true.
Proof.
  pose proof unit_price_tiers_and_monotone as [Htier [_ Hmono]].
  split; [| split; [| split; [| split]]].
  - apply (Htier (widget_order 100 "normal") clock0). cbn. lia.
  - apply (Htier (widget_order 50 "normal") clock0). cbn. lia.
  - apply (Htier (widget_order 10 "normal") clock0). cbn. lia.
  - apply (Htier (widget_order 5 "normal") clock0). cbn. lia.
  - apply (Hmono (widget_order 5 "normal") (widget_order 100 "urgent") clock0 clock1).
    + reflexivity.
    + reflexivity.
    + cbn. lia.
Defined.

(** Claim C3.  Shipping cost, shipping method and lead time depend on the
    priority string alone: "urgent" gives (75.00, "overnight", 1), "high"
    gives (45.00, "express", 2), and every other string, "normal", "low" and
    unknown ones alike, gives (25.00, "standard", 5). *)
Theorem shipping_by_priority :
  (forall (o : OrderDetails.t) (c : Clock),
      let r := eval (process_order o) c in
      (OrderDetails.priority o = "urgent" ->
         shipping_cost_of r = Some 75%float
         /\ shipping_method_of r = Some "overnight"
         /\ lead_time_days_of r = Some 1)
      /\ (OrderDetails.priority o = "high" ->
         shipping_cost_of r = Some 45%float
         /\ shipping_method_of r = Some "express"
         /\ lead_time_days_of r = Some 2)
      /\ (OrderDetails.priority o <> "urgent" -> OrderDetails.priority o <> "high" ->
         shipping_cost_of r = Some 25%float
         /\ shipping_method_of r = Some "standard"
         /\ lead_time_days_of r = Some 5))
  /\ (forall (o1 o2 : OrderDetails.t) (c1 c2 : Clock),
         OrderDetails.priority o1 = OrderDetails.priority o2 ->
         let r1 := eval (process_order o1) c1 in
         let r2 := eval (process_order o2) c2 in
         shipping_cost_of r1 = shipping_cost_of r2
         /\ shipping_method_of r1 = shipping_method_of r2
         /\ lead_time_days_of r1 = lead_time_days_of r2).
Proof.
  split.
  - intros o c r. subst r.
    destruct (shipping_run o c) as (-> & -> & ->).
    destruct (shipping_row_cases (OrderDetails.priority o)) as (Hu & Hh & Hd).
    repeat split; intros.
    all: first [ rewrite Hu by assumption | rewrite Hh by assumption
               | rewrite Hd by assumption ]; reflexivity.
  - intros o1 o2 c1 c2 Hp r1 r2. subst r1 r2.
    destruct (shipping_run o1 c1) as (-> & -> & ->).
    destruct (shipping_run o2 c2) as (-> & -> & ->).
    rewrite Hp. repeat split; reflexivity.
Qed.

Lemma shipping_by_priority_witness :
  let r := eval (process_order (widget_order 20 "low")) clock0 in
  shipping_cost_of r = Some 25%float
  /\ shipping_method_of r = Some "standard"
  /\ lead_time_days_of r = Some 5.
Proof.
  apply (proj1 shipping_by_priority (widget_order 20 "low") clock0).
  - cbn. discriminate.
  - cbn. discriminate.
Defined.

(** Claim C4.  The recommendations are exactly the three fixed messages
    filtered in their order: "Insufficient stock..." is kept exactly when the
    status is PENDING, that is when the quantity exceeds 500; "Large urgent
    orders..." exactly when the priority is "urgent" and the quantity
    exceeds 100; "Consider increasing order..." exactly when the unit price
    exceeds 25.00. *)
Theorem recommendations_exact :
  forall (o : OrderDetails.t) (c : Clock),
    let r := eval (process_order o) c in
    SupplyChainResult.recommendations r =
      (keep_if (String.eqb (SupplyChainResult.status r) "PENDING") msg_insufficient_stock
       ++ keep_if (String.eqb (OrderDetails.priority o) "urgent"
                   && (OrderDetails.quantity o >? 100)) msg_split_shipments
       ++ keep_if (unit_price_above_25 r) msg_volume_pricing)%list
    /\ (SupplyChainResult.status r = "PENDING" <-> OrderDetails.quantity o > 500).
Proof.
  intros o c r. subst r.
  rewrite recommendations_run, unit_price_above_25_run, status_run.
  rewrite Z.gtb_ltb.
  destruct (Z.leb_spec (OrderDetails.quantity o) 500);
    destruct (Z.ltb_spec 500 (OrderDetails.quantity o)); try lia.
  all: split; [reflexivity |].
  all: split; intros; try discriminate; try reflexivity; lia.
Qed.

(** Claim C5.  Every result carries the same inventory snapshot, whatever
    the order: in_stock 600, reserved 100, available 500 = in_stock -
    reserved, reorder_point 200 and warehouse_location "WH-EAST-01". *)
Theorem inventory_fixed_baseline :
  forall (o : OrderDetails.t) (c : Clock),
    exists inv : InventoryResponse.t,
      SupplyChainResult.inventory (eval (process_order o) c) = Some inv
      /\ InventoryResponse.available inv
         = InventoryResponse.in_stock inv - InventoryResponse.reserved inv
      /\ InventoryResponse.in_stock inv = 600
      /\ InventoryResponse.reserved inv = 100
      /\ InventoryResponse.available inv = 500
      /\ InventoryResponse.reorder_point inv = 200
      /\ InventoryResponse.warehouse_location inv = "WH-EAST-01".
Proof.
  intros o c. rewrite process_order_run.
  eexists. split; [reflexivity |]. cbn. repeat split; reflexivity.
Qed.

(** Claim C6.  The claim pads a short product name on the right, and the
    repository's test of the identifier expects it to start with "SUP-"
    and the upper-cased prefix of the name.  The code does neither for
    a name of fewer than three characters: for "ab" the identifier is
    "SUP-0AB", the zero standing in front of the letters, where padding on
    the right gives "SUP-AB0"; "SUP-0AB" does not start with "SUP-AB". *)
Lemma supplier_id_not_right_padded :
  Py.isascii (OrderDetails.product_name short_name_order) = true
  /\ supplier_id_of (eval (process_order short_name_order) clock0) = Some "SUP-0AB"
  /\ supplier_id_right_padded (OrderDetails.product_name short_name_order) = "SUP-AB0"
  /\ String.prefix
       ("SUP-" +:+ Py.upper (Py.slice_to 3 (OrderDetails.product_name short_name_order)))
       "SUP-0AB" = false
  /\ ~ (forall (o : OrderDetails.t) (c : Clock),
           Py.isascii (OrderDetails.product_name o) = true ->
           supplier_id_of (eval (process_order o) c)
           = Some (supplier_id_right_padded (OrderDetails.product_name o))).
Proof.
  split; [reflexivity |]. split; [reflexivity |]. split; [reflexivity |].
  split; [reflexivity |].
  intros H. specialize (H short_name_order clock0 eq_refl). discriminate H.
Qed.

(** Extra X20.  What the code does for the supplier quote.  The quote is
    always available, its capacity is 1000, and its notes are "Preferred
    supplier tier" unless the priority is "low", when they are "Standard
    supplier tier".  For an ASCII product name the identifier is "SUP-"
    followed by the first three characters of the name in upper case, with
    zeros put in front of them up to width 3 when the name has fewer than
    three characters; so it has seven characters, and no zero when the name
    has three or more. *)
Theorem supplier_quote_fields :
  forall (o : OrderDetails.t) (c : Clock),
    exists s : SupplierResponse.t,
      SupplyChainResult.supplier (eval (process_order o) c) = Some s
      /\ SupplierResponse.available s = true
      /\ SupplierResponse.capacity s = 1000
      /\ (OrderDetails.priority o <> "low" ->
          SupplierResponse.notes s = "Preferred supplier tier")
      /\ (OrderDetails.priority o = "low" ->
          SupplierResponse.notes s = "Standard supplier tier")
      /\ (Py.isascii (OrderDetails.product_name o) = true ->
          SupplierResponse.supplier_id s
          = supplier_id_left_padded (OrderDetails.product_name o)
          /\ String.length (SupplierResponse.supplier_id s) = 7%nat
          /\ ((3 <= String.length (OrderDetails.product_name o))%nat ->
              SupplierResponse.supplier_id s
              = "SUP-" +:+ Py.upper (Py.slice_to 3 (OrderDetails.product_name o)))).
Proof.
  intros o c. rewrite process_order_run. eexists. split; [reflexivity |].
  cbn [SupplierResponse.supplier_id SupplierResponse.available
       SupplierResponse.capacity SupplierResponse.notes].
  split; [reflexivity |]. split; [reflexivity |]. split; [| split].
  - intros Hlow. apply String.eqb_neq in Hlow. rewrite Hlow. reflexivity.
  - intros ->. reflexivity.
  - intros _.
    unfold supplier_id_left_padded, Py.format_right_align, Py.upper.
    rewrite length_str_map, length_slice_to.
    assert (Hpad : (3 - Nat.min 3 (String.length (OrderDetails.product_name o))
                    = 3 - String.length (OrderDetails.product_name o))%nat) by lia.
    rewrite Hpad. split; [reflexivity |]. split.
    + rewrite !length_app_str, length_repeat_char, length_str_map, length_slice_to.
      cbn [String.length]. lia.
    + intros Hlen.
      replace (3 - String.length (OrderDetails.product_name o))%nat with 0%nat by lia.
      reflexivity.
Qed.

Lemma supplier_quote_fields_witness :
  exists s : SupplierResponse.t,
    SupplyChainResult.supplier (eval (process_order (widget_order 20 "low")) clock0)
    = Some s
    /\ SupplierResponse.supplier_id s = "SUP-WID"
    /\ SupplierResponse.notes s = "Standard supplier tier".
Proof.
  destruct (supplier_quote_fields (widget_order 20 "low") clock0)
    as (s & Hs & _ & _ & _ & Hnotes & Hid).
  exists s. split; [exact Hs | split].
  - apply Hid; [reflexivity | cbn; lia].
  - apply Hnotes. reflexivity.
Defined.

(** Claim C7.  The coordinator summary is the sentence
    "Order {order_id} for {quantity}x {product_name} has been {status in
    lower case}. {availability clause} Shipping via {shipping_method} to
    {destination or default}." with the clause "Stock is available for
    immediate fulfillment." when the order can be fulfilled and "Stock
    shortage requires supplier coordination." otherwise, and with "default
    destination" in place of an empty destination. *)
Theorem coordinator_summary_sentence :
  forall (o : OrderDetails.t) (c : Clock),
    let r := eval (process_order o) c in
    let availability_clause :=
      if OrderDetails.quantity o <=? 500
      then "Stock is available for immediate fulfillment."
      else "Stock shortage requires supplier coordination." in
    let destination_or_default :=
      if String.eqb (OrderDetails.destination o) ""
      then "default destination"
      else OrderDetails.destination o in
    exists method : string,
      shipping_method_of r = Some method
      /\ SupplyChainResult.coordinator_summary r =
           "Order " +:+ OrderDetails.order_id o
           +:+ " for " +:+ Py.str_of_int (OrderDetails.quantity o)
           +:+ "x " +:+ OrderDetails.product_name o
           +:+ " has been " +:+ Py.lower (SupplyChainResult.status r)
           +:+ ". " +:+ availability_clause
           +:+ " Shipping via " +:+ method
           +:+ " to " +:+ destination_or_default +:+ "."
      /\ Py.lower (SupplyChainResult.status r)
         = (if OrderDetails.quantity o <=? 500 then "confirmed" else "pending").
Proof.
  intros o c. cbv zeta. rewrite process_order_run.
  eexists. split; [reflexivity |].
  cbn [SupplyChainResult.coordinator_summary SupplyChainResult.status].
  destruct (OrderDetails.quantity o <=? 500); split; reflexivity.
Qed.

(** Claim C8.  Two evaluations of orders that agree on quantity, priority,
    product name, order id and destination, under any two clocks, agree on
    status, unit price, lead time, shipping cost, shipping method,
    coordinator summary and recommendations. *)
Theorem decision_fields_deterministic :
  forall (o1 o2 : OrderDetails.t) (c1 c2 : Clock),
    OrderDetails.quantity o1 = OrderDetails.quantity o2 ->
    OrderDetails.priority o1 = OrderDetails.priority o2 ->
    OrderDetails.product_name o1 = OrderDetails.product_name o2 ->
    OrderDetails.order_id o1 = OrderDetails.order_id o2 ->
    OrderDetails.destination o1 = OrderDetails.destination o2 ->
    let r1 := eval (process_order o1) c1 in
    let r2 := eval (process_order o2) c2 in
    SupplyChainResult.status r1 = SupplyChainResult.status r2
    /\ unit_price_of r1 = unit_price_of r2
    /\ lead_time_days_of r1 = lead_time_days_of r2
    /\ shipping_cost_of r1 = shipping_cost_of r2
    /\ shipping_method_of r1 = shipping_method_of r2
    /\ SupplyChainResult.coordinator_summary r1 = SupplyChainResult.coordinator_summary r2
    /\ SupplyChainResult.recommendations r1 = SupplyChainResult.recommendations r2.
Proof.
  intros o1 o2 c1 c2 Hq Hp Hn Hi Hd r1 r2. subst r1 r2.
  rewrite !process_order_run, Hq, Hp, Hn, Hi, Hd.
  repeat split; reflexivity.
Qed.

Lemma decision_fields_deterministic_witness :
  let r1 := eval (process_order order_a) clock0 in
  let r2 := eval (process_order order_b) clock1 in
  SupplyChainResult.status r1 = SupplyChainResult.status r2
  /\ unit_price_of r1 = unit_price_of r2
  /\ lead_time_days_of r1 = lead_time_days_of r2
  /\ shipping_cost_of r1 = shipping_cost_of r2
  /\ shipping_method_of r1 = shipping_method_of r2
  /\ SupplyChainResult.coordinator_summary r1 = SupplyChainResult.coordinator_summary r2
  /\ SupplyChainResult.recommendations r1 = SupplyChainResult.recommendations r2.
Proof.
  apply (decision_fields_deterministic order_a order_b clock0 clock1); reflexivity.
Defined.

(** The two runs of the witness above do differ in their timestamps. *)
Lemma timestamps_may_differ :
  SupplyChainResult.timestamp (eval (process_order order_a) clock0)
  <> SupplyChainResult.timestamp (eval (process_order order_b) clock1).
Proof. vm_compute. discriminate. Qed.

(** Claim C9.  In the order built from a request dictionary, a recognized
    field that is absent gets its default: order_id "ORD-" followed by the
    UTC clock reading as yyyyMMddHHmmss, product_name "Unknown Product",
    quantity 1, priority "normal", destination "", required_date None,
    notes "".  A recognized field that is present is passed through as it
    is.  Adding or removing a key that is not recognized changes nothing. *)
Theorem order_of_request_defaults :
  forall (d : gmap string Py.PyVal) (c : Clock),
    let a := eval (order_of_request d) c in
    ((d !! "order_id" = None ->
        OrderArgs.order_id a = Py.PyStr ("ORD-" +:+ datetime.strftime_YmdHMS (c O)))
     /\ (d !! "product_name" = None ->
        OrderArgs.product_name a = Py.PyStr "Unknown Product")
     /\ (d !! "quantity" = None -> OrderArgs.quantity a = Py.PyInt 1)
     /\ (d !! "priority" = None -> OrderArgs.priority a = Py.PyStr "normal")
     /\ (d !! "destination" = None -> OrderArgs.destination a = Py.PyStr "")
     /\ (d !! "required_date" = None -> OrderArgs.required_date a = Py.PyNone)
     /\ (d !! "notes" = None -> OrderArgs.notes a = Py.PyStr ""))
    /\ (forall v : Py.PyVal,
          (d !! "order_id" = Some v -> OrderArgs.order_id a = v)
          /\ (d !! "product_name" = Some v -> OrderArgs.product_name a = v)
          /\ (d !! "quantity" = Some v -> OrderArgs.quantity a = v)
          /\ (d !! "priority" = Some v -> OrderArgs.priority a = v)
          /\ (d !! "destination" = Some v -> OrderArgs.destination a = v)
          /\ (d !! "required_date" = Some v -> OrderArgs.required_date a = v)
          /\ (d !! "notes" = Some v -> OrderArgs.notes a = v))
    /\ (forall (k : string) (v : Py.PyVal),
          ~ In k recognized_fields ->
          eval (order_of_request (<[k := v]> d)) c = a
          /\ eval (order_of_request (delete k d)) c = a).
Proof.
  intros d c a. subst a.
  unfold eval, order_of_request, bind, utcnow, ret, Py.dict_get. cbn [fst snd].
  split; [| split].
  - repeat split; intros ->; reflexivity.
  - intros v. repeat split; intros ->; reflexivity.
  - intros k v Hk. unfold recognized_fields in Hk. cbn [In] in Hk.
    rewrite !lookup_insert_ne, !lookup_delete_ne
      by (intros Heq; apply Hk; subst k; intuition reflexivity).
    split; reflexivity.
Qed.

Lemma order_of_request_defaults_witness :
  let a := eval (order_of_request sample_request) clock0 in
  OrderArgs.order_id a = Py.PyStr "ORD-20240115103000"
  /\ OrderArgs.product_name a = Py.PyStr "Unknown Product"
  /\ OrderArgs.quantity a = Py.PyInt 7
  /\ eval (order_of_request (<["size" := Py.PyInt 3]> sample_request)) clock0 = a.
Proof.
  pose proof (order_of_request_defaults sample_request clock0)
    as ((Hid & Hname & _) & Hpass & Hother).
  cbv zeta in *.
  split; [| split; [| split]].
  - rewrite Hid by reflexivity. reflexivity.
  - apply Hname. reflexivity.
  - apply (Hpass (Py.PyInt 7)). reflexivity.
  - apply (Hother "size" (Py.PyInt 3)).
    unfold recognized_fields. cbn [In].
    intros H; repeat (destruct H as [H | H]; [discriminate H |]); exact H.
Defined.

(** The sample request, once built, is an order at the annotated types,
    and the evaluator confirms it. *)
Lemma sample_request_evaluates :
  OrderArgs.typed (eval (order_of_request sample_request) clock0)
  = Some (OrderDetails.mk "ORD-20240115103000" "Unknown Product" 7 "normal" "" None "")
  /\ SupplyChainResult.status
       (eval (process_order
                (OrderDetails.mk "ORD-20240115103000" "Unknown Product" 7
                   "normal" "" None "")) clock1)
     = "CONFIRMED".
Proof. split; vm_compute; reflexivity. Qed.

(** Claim C10.  No result has all three recommendations: a quantity above
    500 is at least 100, so its unit price is 22.50 and not above 25.00;
    the "Insufficient stock" and the "volume pricing" messages never occur
    together, and the list has at most two entries. *)
Theorem recommendations_at_most_two :
  forall (o : OrderDetails.t) (c : Clock),
    let r := eval (process_order o) c in
    (length (SupplyChainResult.recommendations r) <= 2)%nat
    /\ ~ (OrderDetails.quantity o > 500 /\ unit_price_above_25 r = true)
    /\ ~ (In msg_insufficient_stock (SupplyChainResult.recommendations r)
          /\ In msg_volume_pricing (SupplyChainResult.recommendations r))
    /\ (OrderDetails.quantity o > 500 -> unit_price_of r = Some 22.5%float).
Proof.
  intros o c r. subst r.
  rewrite recommendations_run, unit_price_above_25_run, unit_price_run.
  unfold keep_if, price_tier.
  destruct (Z.ltb_spec 500 (OrderDetails.quantity o));
    destruct (Z.ltb_spec (OrderDetails.quantity o) 50); try lia.
  all: destruct (Z.geb_spec (OrderDetails.quantity o) 100).
  all: destruct (String.eqb (OrderDetails.priority o) "urgent" &&
                 (100 <? OrderDetails.quantity o)).
  all: cbn [app length In].
  all: repeat split; try lia; try reflexivity.
  all: try (intros [? ?]; (discriminate || lia)).
  all: intros [Ha Hb];
       repeat match goal with
         | H : _ \/ _ |- _ => destruct H
         | H : False |- _ => destruct H
         | H : _ = _ |- _ => discriminate H
         end.
Qed.

Lemma recommendations_at_most_two_witness :
  unit_price_of (eval (process_order (widget_order 501 "urgent")) clock0)
  = Some 22.5%float.
Proof.
  apply (recommendations_at_most_two (widget_order 501 "urgent") clock0).
  cbn. lia.
Defined.


(** ** The agent-driven path: the parser of the agents' messages *)

Lemma coordinator_message_source (s : string) :
  coordinator_message s !! "source" = Some (Py.PyStr "CoordinatorAgent").
Proof. unfold coordinator_message. apply lookup_insert_eq. Qed.

Lemma coordinator_message_content (s : string) :
  coordinator_message s !! "content" = Some (Py.PyStr s).
Proof.
  unfold coordinator_message.
  rewrite lookup_insert_ne by discriminate. apply lookup_insert_eq.
Qed.

Lemma parse_step_coordinator (st : SupplyChainAgentSystem.loop_state) (s : string) :
  SupplyChainAgentSystem.parse_step st (coordinator_message s) =
  Py.Ok (s, if Py.contains "CONFIRMED" (Py.upper s) then "CONFIRMED"
            else if Py.contains "REJECTED" (Py.upper s) then "REJECTED"
            else snd st).
Proof.
  unfold SupplyChainAgentSystem.parse_step.
  rewrite coordinator_message_source, coordinator_message_content.
  cbn [Py.eq_str]. rewrite String.eqb_refl.
  destruct (Py.contains "CONFIRMED" (Py.upper s)); [reflexivity |].
  destruct (Py.contains "REJECTED" (Py.upper s)); reflexivity.
Qed.

Lemma parse_step_other (st : SupplyChainAgentSystem.loop_state)
    (msg : gmap string Py.PyVal) :
  is_Some (msg !! "source") -> is_coordinator msg = false ->
  SupplyChainAgentSystem.parse_step st msg = Py.Ok st.
Proof.
  unfold is_coordinator, SupplyChainAgentSystem.parse_step.
  intros [v ->] ->. reflexivity.
Qed.

Lemma parse_step_well_formed (st : SupplyChainAgentSystem.loop_state)
    (msg : gmap string Py.PyVal) :
  well_formed_message msg = true <->
  exists st', SupplyChainAgentSystem.parse_step st msg = Py.Ok st'.
Proof.
  unfold well_formed_message, SupplyChainAgentSystem.parse_step.
  destruct (msg !! "source") as [source |].
  - destruct (Py.eq_str source "CoordinatorAgent").
    + destruct (msg !! "content") as [[| b | n | x | s] |].
      5: { split; [intros _ | reflexivity].
           destruct (Py.contains "CONFIRMED" (Py.upper s)); [eexists; reflexivity |].
           destruct (Py.contains "REJECTED" (Py.upper s)); eexists; reflexivity. }
      all: split; [discriminate | intros [st' [=]]].
    + split; [intros _; eexists; reflexivity | reflexivity].
  - split; [discriminate | intros [st' [=]]].
Qed.

Lemma parse_loop_app (l1 l2 : list (gmap string Py.PyVal))
    (st : SupplyChainAgentSystem.loop_state) :
  SupplyChainAgentSystem.parse_loop (l1 ++ l2) st =
  match SupplyChainAgentSystem.parse_loop l1 st with
  | Py.Ok st' => SupplyChainAgentSystem.parse_loop l2 st'
  | Py.Raise e => Py.Raise e
  end.
Proof.
  revert st. induction l1 as [| m l1 IH]; intros st; cbn; [reflexivity |].
  destruct (SupplyChainAgentSystem.parse_step st m); [apply IH | reflexivity].
Qed.

Lemma parse_loop_well_formed (msgs : list (gmap string Py.PyVal))
    (st : SupplyChainAgentSystem.loop_state) :
  Forall (fun m => well_formed_message m = true) msgs <->
  exists st', SupplyChainAgentSystem.parse_loop msgs st = Py.Ok st'.
Proof.
  revert st. induction msgs as [| m msgs IH]; intros st; cbn.
  - split; [intros _; eexists; reflexivity | constructor].
  - split.
    + intros H. inversion H as [| ? ? Hm Hrest]; subst.
      apply (parse_step_well_formed st) in Hm. destruct Hm as [st1 ->].
      apply IH. exact Hrest.
    + intros [st' H].
      destruct (SupplyChainAgentSystem.parse_step st m) as [st1 |] eqn:Hstep;
        [| discriminate].
      constructor.
      * apply (parse_step_well_formed st). eexists. exact Hstep.
      * apply (IH st1). eexists. exact H.
Qed.

Section ParseRun.

Variable order_id : string.
Variable c : Clock.

Lemma parse_agent_responses_run (msgs : list (gmap string Py.PyVal)) :
  eval (SupplyChainAgentSystem._parse_agent_responses order_id msgs) c =
  match SupplyChainAgentSystem.parse_loop msgs ("", "PENDING") with
  | Py.Ok (coordinator_msg, status) =>
      Py.Ok (parsed_result order_id c coordinator_msg status)
  | Py.Raise e => Py.Raise e
  end.
Proof.
  unfold SupplyChainAgentSystem._parse_agent_responses.
  destruct (SupplyChainAgentSystem.parse_loop msgs ("", "PENDING"))
    as [[coordinator_msg status] | e]; [| reflexivity].
  unfold parsed_result. rewrite <- str_or_eqb.
  destruct (Py.contains "recommend" (Py.lower coordinator_msg)); reflexivity.
Qed.

End ParseRun.

Lemma prefix_str_map (f : ascii -> ascii) (n h : string) :
  String.prefix n h = true ->
  String.prefix (Py.str_map f n) (Py.str_map f h) = true.
Proof.
  revert n. induction h as [| b h IH]; intros [| a n]; cbn; try easy.
  destruct (ascii_dec a b) as [-> | Hne]; [| discriminate].
  intros H. destruct (ascii_dec (f b) (f b)) as [_ | Hf]; [| congruence].
  apply IH. exact H.
Qed.

Lemma contains_str_map (f : ascii -> ascii) (n h : string) :
  Py.contains n h = true -> Py.contains (Py.str_map f n) (Py.str_map f h) = true.
Proof.
  induction h as [| b h IH]; cbn [Py.contains]; intros H.
  - apply orb_true_iff in H. destruct H as [H | H]; [| discriminate].
    apply (prefix_str_map f) in H. cbn [Py.str_map] in H.
    cbn [Py.str_map Py.contains]. rewrite H. reflexivity.
  - apply orb_true_iff in H. destruct H as [H | H].
    + apply (prefix_str_map f) in H. cbn [Py.str_map] in H.
      cbn [Py.str_map Py.contains]. rewrite H. reflexivity.
    + cbn [Py.str_map Py.contains]. rewrite (IH H). apply orb_true_r.
Qed.

Lemma parse_loop_filter (msgs : list (gmap string Py.PyVal))
    (st : SupplyChainAgentSystem.loop_state) :
  Forall (fun m => is_Some (m !! "source")) msgs ->
  SupplyChainAgentSystem.parse_loop (List.filter is_coordinator msgs) st
  = SupplyChainAgentSystem.parse_loop msgs st.
Proof.
  intros H. revert st. induction H as [| m msgs Hm _ IH]; intros st; cbn;
    [reflexivity |].
  destruct (is_coordinator m) eqn:Hc; cbn.
  - destruct (SupplyChainAgentSystem.parse_step st m); [apply IH | reflexivity].
  - rewrite (parse_step_other st m Hm Hc). apply IH.
Qed.

Lemma parse_loop_status_range (msgs : list (gmap string Py.PyVal))
    (st st' : SupplyChainAgentSystem.loop_state) :
  In (snd st) ["PENDING"; "CONFIRMED"; "REJECTED"] ->
  SupplyChainAgentSystem.parse_loop msgs st = Py.Ok st' ->
  In (snd st') ["PENDING"; "CONFIRMED"; "REJECTED"].
Proof.
  revert st. induction msgs as [| m msgs IH]; intros st Hin; cbn.
  - intros [= <-]. exact Hin.
  - destruct (SupplyChainAgentSystem.parse_step st m) as [st1 |] eqn:Hstep;
      [| discriminate].
    apply IH.
    unfold SupplyChainAgentSystem.parse_step in Hstep.
    destruct (m !! "source") as [source |]; [| discriminate].
    destruct (Py.eq_str source "CoordinatorAgent").
    + destruct (m !! "content") as [[| b | n | x | s] |]; try discriminate.
      destruct (Py.contains "CONFIRMED" (Py.upper s)).
      { injection Hstep as <-. cbn. tauto. }
      destruct (Py.contains "REJECTED" (Py.upper s)); injection Hstep as <-.
      * cbn. tauto.
      * exact Hin.
    + injection Hstep as <-. exact Hin.
Qed.

Lemma parse_snoc (order_id : string) (c : Clock)
    (msgs : list (gmap string Py.PyVal)) (s : string) (r : SupplyChainResult.t) :
  eval (SupplyChainAgentSystem._parse_agent_responses order_id msgs) c = Py.Ok r ->
  eval (SupplyChainAgentSystem._parse_agent_responses order_id
          (msgs ++ [coordinator_message s])) c
  = Py.Ok (parsed_result order_id c s
             (if Py.contains "CONFIRMED" (Py.upper s) then "CONFIRMED"
              else if Py.contains "REJECTED" (Py.upper s) then "REJECTED"
              else SupplyChainResult.status r)).
Proof.
  rewrite !parse_agent_responses_run, parse_loop_app.
  destruct (SupplyChainAgentSystem.parse_loop msgs ("", "PENDING"))
    as [[m st] | e]; [| discriminate].
  intros [= <-]. cbn [SupplyChainAgentSystem.parse_loop].
  rewrite parse_step_coordinator. reflexivity.
Qed.

(** Extra X1.  [_parse_agent_responses] returns a result exactly when every
    message has a "source" key and every message of the coordinator has a
    "content" that is a string; otherwise it raises.  A content missing or
    not a string in a message of another agent does no harm. *)
Theorem parse_succeeds_iff_well_formed :
  forall (order_id : string) (msgs : list (gmap string Py.PyVal)) (c : Clock),
    (exists r : SupplyChainResult.t,
        eval (SupplyChainAgentSystem._parse_agent_responses order_id msgs) c = Py.Ok r)
    <-> Forall (fun m => well_formed_message m = true) msgs.
Proof.
  intros order_id msgs c. rewrite parse_agent_responses_run.
  rewrite (parse_loop_well_formed msgs ("", "PENDING")).
  destruct (SupplyChainAgentSystem.parse_loop msgs ("", "PENDING"))
    as [[m st] | e]; split.
  - intros _. eexists. reflexivity.
  - intros _. eexists. reflexivity.
  - intros [r [=]].
  - intros [st' [=]].
Qed.

(** Extra X2.  The first message that cannot be read decides the exception:
    after readable messages, a message without "source" raises
    KeyError("source"), a coordinator message without "content" raises
    KeyError("content"), and a coordinator message whose content is not a
    string raises AttributeError, whatever follows. *)
Theorem parse_raises_at_first_malformed :
  forall (order_id : string) (l1 l2 : list (gmap string Py.PyVal))
         (m : gmap string Py.PyVal) (c : Clock),
    Forall (fun m => well_formed_message m = true) l1 ->
    let outcome :=
      eval (SupplyChainAgentSystem._parse_agent_responses order_id (l1 ++ m :: l2)) c in
    (m !! "source" = None -> outcome = Py.Raise (Py.KeyError "source"))
    /\ (m !! "source" = Some (Py.PyStr "CoordinatorAgent") ->
        m !! "content" = None -> outcome = Py.Raise (Py.KeyError "content"))
    /\ (forall v : Py.PyVal,
          m !! "source" = Some (Py.PyStr "CoordinatorAgent") ->
          m !! "content" = Some v ->
          (forall s : string, v <> Py.PyStr s) ->
          outcome = Py.Raise (Py.AttributeError "upper")).
Proof.
  intros order_id l1 l2 m c Hwf outcome. subst outcome.
  rewrite parse_agent_responses_run, parse_loop_app.
  apply (parse_loop_well_formed l1 ("", "PENDING")) in Hwf.
  destruct Hwf as [st ->]. cbn [SupplyChainAgentSystem.parse_loop].
  unfold SupplyChainAgentSystem.parse_step.
  split; [| split].
  - intros ->. reflexivity.
  - intros -> ->. reflexivity.
  - intros v -> -> Hv. cbn [Py.eq_str]. rewrite String.eqb_refl.
    destruct v as [| b | n | x | s]; try reflexivity.
    exfalso. apply (Hv s). reflexivity.
Qed.

Lemma parse_raises_at_first_malformed_witness :
  eval (SupplyChainAgentSystem._parse_agent_responses "ORD-001"
          ([] ++ (<["content" := Py.PyStr "Some message"]> ∅)
              :: [coordinator_message "CONFIRMED"])) clock0
  = Py.Raise (Py.KeyError "source")
  /\ eval (SupplyChainAgentSystem._parse_agent_responses "ORD-001"
             ([coordinator_message "ok"]
              ++ (<["source" := Py.PyStr "CoordinatorAgent"]>
                    (<["content" := Py.PyNone]> ∅)) :: [])) clock0
     = Py.Raise (Py.AttributeError "upper").
Proof.
  split.
  - apply (parse_raises_at_first_malformed "ORD-001" []
             [coordinator_message "CONFIRMED"]
             (<["content" := Py.PyStr "Some message"]> ∅) clock0).
    + constructor.
    + reflexivity.
  - apply (parse_raises_at_first_malformed "ORD-001" [coordinator_message "ok"] []
             (<["source" := Py.PyStr "CoordinatorAgent"]>
                (<["content" := Py.PyNone]> ∅)) clock0) with (v := Py.PyNone).
    + repeat constructor.
    + reflexivity.
    + reflexivity.
    + discriminate.
Defined.

(** Extra X3.  Messages of agents other than the coordinator have no effect:
    when every message has a source, parsing only the coordinator's
    messages gives the same outcome as parsing all of them. *)
Theorem parse_ignores_other_sources :
  forall (order_id : string) (msgs : list (gmap string Py.PyVal)) (c : Clock),
    Forall (fun m => is_Some (m !! "source")) msgs ->
    eval (SupplyChainAgentSystem._parse_agent_responses order_id
            (List.filter is_coordinator msgs)) c
    = eval (SupplyChainAgentSystem._parse_agent_responses order_id msgs) c.
Proof.
  intros order_id msgs c H.
  rewrite !parse_agent_responses_run, parse_loop_filter by exact H. reflexivity.
Qed.

Lemma parse_ignores_other_sources_witness :
  eval (SupplyChainAgentSystem._parse_agent_responses "ORD-001"
          (List.filter is_coordinator
             [text_message_dict "SupplierAgent" "Product is available";
              coordinator_message "Order CONFIRMED"])) clock0
  = eval (SupplyChainAgentSystem._parse_agent_responses "ORD-001"
            [text_message_dict "SupplierAgent" "Product is available";
             coordinator_message "Order CONFIRMED"]) clock0.
Proof.
  apply (parse_ignores_other_sources "ORD-001"
           [text_message_dict "SupplierAgent" "Product is available";
            coordinator_message "Order CONFIRMED"] clock0).
  repeat constructor; eexists; reflexivity.
Defined.

(** Extra X4.  The status is sticky while the summary is not: after a
    successful parse, one more coordinator message in ASCII text that
    mentions neither CONFIRMED nor REJECTED, in any case, keeps the status
    found so far, but the coordinator summary becomes that last message
    (or the default text when the message is empty). *)
Theorem parse_status_sticky :
  forall (order_id : string) (msgs : list (gmap string Py.PyVal)) (s : string)
         (c : Clock) (r : SupplyChainResult.t),
    eval (SupplyChainAgentSystem._parse_agent_responses order_id msgs) c = Py.Ok r ->
    Py.isascii s = true ->
    Py.contains "CONFIRMED" (Py.upper s) = false ->
    Py.contains "REJECTED" (Py.upper s) = false ->
    exists r' : SupplyChainResult.t,
      eval (SupplyChainAgentSystem._parse_agent_responses order_id
              (msgs ++ [coordinator_message s])) c = Py.Ok r'
      /\ SupplyChainResult.status r' = SupplyChainResult.status r
      /\ SupplyChainResult.coordinator_summary r'
         = (if String.eqb s "" then default_summary else s).
Proof.
  intros order_id msgs s c r Hr _ Hc Hj.
  rewrite (parse_snoc order_id c msgs s r Hr), Hc, Hj.
  eexists. split; [reflexivity |]. split; reflexivity.
Qed.

Lemma parse_status_sticky_witness :
  exists r' : SupplyChainResult.t,
    eval (SupplyChainAgentSystem._parse_agent_responses "ORD-001"
            ([coordinator_message "Order CONFIRMED"]
             ++ [coordinator_message "Please wait"])) clock0 = Py.Ok r'
    /\ SupplyChainResult.status r' = "CONFIRMED"
    /\ SupplyChainResult.coordinator_summary r' = "Please wait".
Proof.
  apply (parse_status_sticky "ORD-001" [coordinator_message "Order CONFIRMED"]
           "Please wait" clock0
           (parsed_result "ORD-001" clock0 "Order CONFIRMED" "CONFIRMED"));
    reflexivity.
Defined.

(** Extra X5.  The verdict is read without regard to case, and CONFIRMED
    wins over REJECTED: after a successful parse, a last coordinator message
    that contains some spelling of "confirmed" gives the status CONFIRMED,
    even when it also mentions a rejection; a last coordinator message in
    ASCII text that contains a spelling of "rejected" and no spelling of
    "confirmed" gives REJECTED. *)
Theorem parse_verdict_case_insensitive :
  forall (order_id : string) (msgs : list (gmap string Py.PyVal)) (s w : string)
         (c : Clock) (r : SupplyChainResult.t),
    eval (SupplyChainAgentSystem._parse_agent_responses order_id msgs) c = Py.Ok r ->
    Py.contains w s = true ->
    exists r' : SupplyChainResult.t,
      eval (SupplyChainAgentSystem._parse_agent_responses order_id
              (msgs ++ [coordinator_message s])) c = Py.Ok r'
      /\ (Py.upper w = "CONFIRMED" -> SupplyChainResult.status r' = "CONFIRMED")
      /\ (Py.isascii s = true ->
          Py.upper w = "REJECTED" ->
          Py.contains "CONFIRMED" (Py.upper s) = false ->
          SupplyChainResult.status r' = "REJECTED").
Proof.
  intros order_id msgs s w c r Hr Hw.
  rewrite (parse_snoc order_id c msgs s r Hr).
  apply (contains_str_map Py.upper_char) in Hw. fold (Py.upper w) (Py.upper s) in Hw.
  eexists. split; [reflexivity |]. cbn [SupplyChainResult.status]. split.
  - intros Hu. rewrite Hu in Hw. rewrite Hw. reflexivity.
  - intros _ Hu Hno. rewrite Hu in Hw. rewrite Hno, Hw. reflexivity.
Qed.

Lemma parse_verdict_case_insensitive_witness :
  (exists r' : SupplyChainResult.t,
      eval (SupplyChainAgentSystem._parse_agent_responses "ORD-001"
              ([] ++ [coordinator_message "Not rejected: order is CoNfIrMeD"])) clock0
      = Py.Ok r'
      /\ SupplyChainResult.status r' = "CONFIRMED")
  /\ (exists r' : SupplyChainResult.t,
         eval (SupplyChainAgentSystem._parse_agent_responses "ORD-001"
                 ([coordinator_message "Order CONFIRMED"]
                  ++ [coordinator_message "Sorry, order Rejected"])) clock0
         = Py.Ok r'
         /\ SupplyChainResult.status r' = "REJECTED").
Proof.
  split.
  - destruct (parse_verdict_case_insensitive "ORD-001" []
                "Not rejected: order is CoNfIrMeD" "CoNfIrMeD" clock0
                (parsed_result "ORD-001" clock0 "" "PENDING")
                eq_refl eq_refl) as (r' & Hr' & Hconf & _).
    exists r'. split; [exact Hr' | apply Hconf; reflexivity].
  - destruct (parse_verdict_case_insensitive "ORD-001"
                [coordinator_message "Order CONFIRMED"]
                "Sorry, order Rejected" "Rejected" clock0
                (parsed_result "ORD-001" clock0 "Order CONFIRMED" "CONFIRMED")
                eq_refl eq_refl) as (r' & Hr' & _ & Hrej).
    exists r'. split; [exact Hr' | apply Hrej; reflexivity].
Defined.

(** Extra X6.  Whatever the messages, a parsed result has a status among
    PENDING, CONFIRMED and REJECTED, carries the order id it was given,
    recommends either nothing or the three fixed recommendations, and ships
    by "express" or "standard". *)
Theorem parse_result_ranges :
  forall (order_id : string) (msgs : list (gmap string Py.PyVal)) (c : Clock)
         (r : SupplyChainResult.t),
    eval (SupplyChainAgentSystem._parse_agent_responses order_id msgs) c = Py.Ok r ->
    In (SupplyChainResult.status r) ["PENDING"; "CONFIRMED"; "REJECTED"]
    /\ SupplyChainResult.order_id r = order_id
    /\ (SupplyChainResult.recommendations r = []
        \/ SupplyChainResult.recommendations r = parsed_recommendations)
    /\ (shipping_method_of r = Some "express"
        \/ shipping_method_of r = Some "standard").
Proof.
  intros order_id msgs c r. rewrite parse_agent_responses_run.
  destruct (SupplyChainAgentSystem.parse_loop msgs ("", "PENDING"))
    as [[m st] | e] eqn:Hloop; [| discriminate].
  intros [= <-].
  apply parse_loop_status_range in Hloop; [| cbn; tauto].
  unfold shipping_method_of, parsed_result.
  cbn [SupplyChainResult.status SupplyChainResult.order_id
       SupplyChainResult.recommendations SupplyChainResult.logistics
       fmap option_fmap option_map LogisticsResponse.shipping_method snd] in *.
  split; [exact Hloop |]. split; [reflexivity |]. split.
  - destruct (Py.contains "recommend" (Py.lower m)); [right | left]; reflexivity.
  - destruct (Py.contains "urgent" (Py.lower m)); [left | right]; reflexivity.
Qed.

Lemma parse_result_ranges_witness :
  In (SupplyChainResult.status
        (parsed_result "ORD-001" clock0 "I recommend to reject: REJECTED" "REJECTED"))
     ["PENDING"; "CONFIRMED"; "REJECTED"].
Proof.
  apply (parse_result_ranges "ORD-001"
           [coordinator_message "I recommend to reject: REJECTED"] clock0
           (parsed_result "ORD-001" clock0 "I recommend to reject: REJECTED" "REJECTED")).
  reflexivity.
Defined.

(** Extra X7.  Without a message of the coordinator, and so for an empty
    list of messages, the result is PENDING, its summary is the default
    text, it has no recommendations and ships by "standard". *)
Theorem parse_without_coordinator :
  forall (order_id : string) (msgs : list (gmap string Py.PyVal)) (c : Clock),
    Forall (fun m => is_Some (m !! "source") /\ is_coordinator m = false) msgs ->
    exists r : SupplyChainResult.t,
      eval (SupplyChainAgentSystem._parse_agent_responses order_id msgs) c = Py.Ok r
      /\ SupplyChainResult.status r = "PENDING"
      /\ SupplyChainResult.coordinator_summary r = default_summary
      /\ SupplyChainResult.recommendations r = []
      /\ shipping_method_of r = Some "standard".
Proof.
  intros order_id msgs c H. rewrite parse_agent_responses_run.
  assert (Hloop : forall st, SupplyChainAgentSystem.parse_loop msgs st = Py.Ok st).
  { induction H as [| m msgs [Hs Hc] _ IH]; intros st; cbn; [reflexivity |].
    rewrite (parse_step_other st m Hs Hc). apply IH. }
  rewrite Hloop. eexists. split; [reflexivity |]. repeat split; reflexivity.
Qed.

Lemma parse_without_coordinator_witness :
  exists r : SupplyChainResult.t,
    eval (SupplyChainAgentSystem._parse_agent_responses "ORD-001"
            [text_message_dict "LogisticsAgent" "Can ship"]) clock0 = Py.Ok r
    /\ SupplyChainResult.status r = "PENDING"
    /\ SupplyChainResult.coordinator_summary r = default_summary
    /\ SupplyChainResult.recommendations r = []
    /\ shipping_method_of r = Some "standard".
Proof.
  apply (parse_without_coordinator "ORD-001"
           [text_message_dict "LogisticsAgent" "Can ship"] clock0).
  repeat constructor. eexists. reflexivity.
Defined.

(** Extra X8.  Recommendations, shipping method and summary come from the
    last coordinator message alone: after a successful parse, one more
    coordinator message gives the three recommendations exactly when it
    contains "recommend" in any case, "express" shipping exactly when it
    contains "urgent" in any case, and "standard" otherwise, whatever the
    earlier messages said. *)
Theorem parse_last_message_fields :
  forall (order_id : string) (msgs : list (gmap string Py.PyVal)) (s : string)
         (c : Clock) (r : SupplyChainResult.t),
    eval (SupplyChainAgentSystem._parse_agent_responses order_id msgs) c = Py.Ok r ->
    exists r' : SupplyChainResult.t,
      eval (SupplyChainAgentSystem._parse_agent_responses order_id
              (msgs ++ [coordinator_message s])) c = Py.Ok r'
      /\ SupplyChainResult.recommendations r'
         = (if Py.contains "recommend" (Py.lower s) then parsed_recommendations else [])
      /\ shipping_method_of r'
         = Some (if Py.contains "urgent" (Py.lower s) then "express" else "standard")
      /\ (forall w : string,
            Py.contains w s = true -> Py.lower w = "urgent" ->
            shipping_method_of r' = Some "express").
Proof.
  intros order_id msgs s c r Hr.
  rewrite (parse_snoc order_id c msgs s r Hr).
  eexists. split; [reflexivity |]. split; [reflexivity |]. split; [reflexivity |].
  intros w Hw Hl.
  apply (contains_str_map Py.lower_char) in Hw. fold (Py.lower w) (Py.lower s) in Hw.
  rewrite Hl in Hw. unfold shipping_method_of, parsed_result. cbn. rewrite Hw.
  reflexivity.
Qed.

Lemma parse_last_message_fields_witness :
  exists r' : SupplyChainResult.t,
    eval (SupplyChainAgentSystem._parse_agent_responses "ORD-001"
            ([coordinator_message "I recommend waiting"]
             ++ [coordinator_message "URGENT processing required"])) clock0 = Py.Ok r'
    /\ SupplyChainResult.recommendations r' = []
    /\ shipping_method_of r' = Some "express".
Proof.
  destruct (parse_last_message_fields "ORD-001"
              [coordinator_message "I recommend waiting"]
              "URGENT processing required" clock0
              (parsed_result "ORD-001" clock0 "I recommend waiting" "PENDING")
              eq_refl) as (r' & Hr' & Hrec & Hship & _).
  exists r'. split; [exact Hr' | split; [exact Hrec | exact Hship]].
Defined.

(** ** The agent-driven path: the stream and the task *)

Lemma collect_messages_cons (item : StreamItem) (stream : list StreamItem) :
  SupplyChainAgentSystem.collect_messages (item :: stream) =
  (match item with
   | TextMessage source content => [text_message_dict source content]
   | OtherEvent => []
   end ++ SupplyChainAgentSystem.collect_messages stream)%list.
Proof.
  unfold SupplyChainAgentSystem.collect_messages.
  set (f := fun (messages : list (gmap string Py.PyVal)) (message : StreamItem) => _).
  assert (Hacc : forall s acc, fold_left f s acc = (acc ++ fold_left f s [])%list).
  { induction s as [| x s IH]; intros acc; cbn [fold_left].
    - rewrite app_nil_r. reflexivity.
    - rewrite (IH (f acc x)), (IH (f [] x)).
      destruct x; cbn; unfold Py.append; cbn; rewrite <- ?app_assoc; reflexivity. }
  cbn [fold_left]. rewrite Hacc. destruct item; reflexivity.
Qed.

Lemma collect_messages_well_formed (stream : list StreamItem) :
  Forall (fun m => well_formed_message m = true)
    (SupplyChainAgentSystem.collect_messages stream).
Proof.
  induction stream as [| item stream IH]; [constructor |].
  rewrite collect_messages_cons. destruct item as [source content |]; [| exact IH].
  constructor; [| exact IH].
  unfold well_formed_message, text_message_dict.
  rewrite lookup_insert_eq, lookup_insert_ne by discriminate.
  rewrite lookup_insert_eq.
  destruct (Py.eq_str (Py.PyStr source) "CoordinatorAgent"); reflexivity.
Qed.

(** Extra X9.  [SupplyChainAgentSystem.process_order] raises exactly when
    the team's stream raises, and then with the stream's exception.  When
    the stream is exhausted it returns a result, whatever was yielded: the
    dictionaries it collects always have both keys and string contents, so
    the KeyError and AttributeError of the parser cannot occur.  The result
    carries the order id of the order and a status among PENDING, CONFIRMED
    and REJECTED. *)
Theorem llm_process_order_outcome :
  forall (run_stream : string -> TeamRun) (order : OrderDetails.t) (c : Clock)
         (stream : list StreamItem),
    (run_stream (SupplyChainAgentSystem.task_message order) = (stream, Exhausted) ->
     exists r : SupplyChainResult.t,
       eval (SupplyChainAgentSystem.process_order run_stream order) c = Py.Ok r
       /\ SupplyChainResult.order_id r = OrderDetails.order_id order
       /\ In (SupplyChainResult.status r) ["PENDING"; "CONFIRMED"; "REJECTED"])
    /\ (forall e : Py.PyError,
          run_stream (SupplyChainAgentSystem.task_message order) = (stream, Raised e) ->
          eval (SupplyChainAgentSystem.process_order run_stream order) c = Py.Raise e).
Proof.
  intros run_stream order c stream. unfold SupplyChainAgentSystem.process_order.
  split.
  - intros ->. rewrite parse_agent_responses_run.
    pose proof (collect_messages_well_formed stream) as Hwf.
    apply (parse_loop_well_formed _ ("", "PENDING")) in Hwf.
    destruct Hwf as [[m st] Hloop]. rewrite Hloop.
    eexists. split; [reflexivity |]. split; [reflexivity |].
    apply parse_loop_status_range in Hloop; [exact Hloop | cbn; tauto].
  - intros e ->. reflexivity.
Qed.

Lemma llm_process_order_outcome_witness :
  (exists r : SupplyChainResult.t,
      eval (SupplyChainAgentSystem.process_order
              (fun _ => ([OtherEvent; TextMessage "CoordinatorAgent" "Order CONFIRMED"],
                         Exhausted)) order_a) clock0 = Py.Ok r
      /\ SupplyChainResult.order_id r = "ORD-7")
  /\ eval (SupplyChainAgentSystem.process_order
             (fun _ => ([TextMessage "CoordinatorAgent" "Order CONFIRMED"],
                        Raised (Py.ExternalError "APIConnectionError"))) order_a) clock0
     = Py.Raise (Py.ExternalError "APIConnectionError").
Proof.
  split.
  - destruct (proj1 (llm_process_order_outcome
                       (fun _ => ([OtherEvent;
                                   TextMessage "CoordinatorAgent" "Order CONFIRMED"],
                                  Exhausted)) order_a clock0
                       [OtherEvent; TextMessage "CoordinatorAgent" "Order CONFIRMED"])
                eq_refl)
      as (r & Hr & Hid & _).
    exists r. split; [exact Hr | exact Hid].
  - apply (proj2 (llm_process_order_outcome
                    (fun _ => ([TextMessage "CoordinatorAgent" "Order CONFIRMED"],
                               Raised (Py.ExternalError "APIConnectionError")))
                    order_a clock0
                    [TextMessage "CoordinatorAgent" "Order CONFIRMED"])).
    reflexivity.
Defined.

(** Extra X10.  The loop over the stream keeps one dictionary per text
    message, in the order of the stream, and passes over every other
    event: collecting distributes over concatenation, a text message
    contributes its dictionary in front, another event contributes
    nothing. *)
Theorem collect_messages_in_stream_order :
  (forall s1 s2 : list StreamItem,
      SupplyChainAgentSystem.collect_messages (s1 ++ s2)
      = (SupplyChainAgentSystem.collect_messages s1
         ++ SupplyChainAgentSystem.collect_messages s2)%list)
  /\ (forall (source content : string) (s : list StreamItem),
         SupplyChainAgentSystem.collect_messages (TextMessage source content :: s)
         = text_message_dict source content
             :: SupplyChainAgentSystem.collect_messages s)
  /\ (forall s : list StreamItem,
         SupplyChainAgentSystem.collect_messages (OtherEvent :: s)
         = SupplyChainAgentSystem.collect_messages s)
  /\ (forall s : list StreamItem,
         (length (SupplyChainAgentSystem.collect_messages s) <= length s)%nat).
Proof.
  split; [| split; [| split]].
  - intros s1 s2. induction s1 as [| x s1 IH]; [reflexivity |].
    cbn [app]. rewrite !collect_messages_cons, IH, app_assoc. reflexivity.
  - intros source content s. rewrite collect_messages_cons. reflexivity.
  - intros s. rewrite collect_messages_cons. reflexivity.
  - intros s. induction s as [| x s IH]; [reflexivity |].
    rewrite collect_messages_cons. destruct x; cbn [app length]; lia.
Qed.

Lemma contains_unfold (n h : string) :
  Py.contains n h =
  String.prefix n h
  || match h with
     | EmptyString => false
     | String _ rest => Py.contains n rest
     end.
Proof. destruct h; reflexivity. Qed.

Lemma prefix_app (n r : string) : String.prefix n (n +:+ r) = true.
Proof.
  induction n as [| a n IH]; [destruct r; reflexivity |].
  simpl. destruct (ascii_dec a a) as [_ | Hne]; [exact IH | congruence].
Qed.

Lemma contains_here (n r : string) : Py.contains n (n +:+ r) = true.
Proof. rewrite contains_unfold, prefix_app. reflexivity. Qed.

Lemma contains_app_r (n h1 h2 : string) :
  Py.contains n h2 = true -> Py.contains n (h1 +:+ h2) = true.
Proof.
  intros H. induction h1 as [| a h1 IH]; [exact H |].
  change (Py.contains n (String a (h1 +:+ h2)) = true).
  rewrite contains_unfold, IH. apply orb_true_r.
Qed.

Ltac find_in_task :=
  repeat first [ simple apply contains_here | simple apply contains_app_r ].

(** Extra X11.  The task message handed to the agents mentions the order:
    it contains the order id, the product name, the quantity in decimal,
    the priority and the destination; it contains the required date and the
    notes when they are given, and says "Not specified" and "None" in their
    place when they are absent or empty. *)
Theorem task_message_mentions_order :
  forall order : OrderDetails.t,
    let task := SupplyChainAgentSystem.task_message order in
    Py.contains (OrderDetails.order_id order) task = true
    /\ Py.contains (OrderDetails.product_name order) task = true
    /\ Py.contains (Py.str_of_int (OrderDetails.quantity order)) task = true
    /\ Py.contains (OrderDetails.priority order) task = true
    /\ Py.contains (OrderDetails.destination order) task = true
    /\ (forall d : string,
          OrderDetails.required_date order = Some d -> d <> "" ->
          Py.contains d task = true)
    /\ (OrderDetails.required_date order = None
        \/ OrderDetails.required_date order = Some "" ->
        Py.contains ("Required Date: " +:+ "Not specified" +:+ Py.nl) task = true)
    /\ (OrderDetails.notes order <> "" ->
        Py.contains (OrderDetails.notes order) task = true)
    /\ (OrderDetails.notes order = "" ->
        Py.contains ("Notes: " +:+ "None" +:+ Py.nl) task = true).
Proof.
  intros order task. subst task. unfold SupplyChainAgentSystem.task_message.
  repeat split.
  - find_in_task.
  - find_in_task.
  - find_in_task.
  - find_in_task.
  - find_in_task.
  - intros d -> Hd. rewrite str_or_eqb.
    apply String.eqb_neq in Hd. rewrite Hd. find_in_task.
  - intros [-> | ->]; cbn [Py.str_or Py.str_truthy].
    all: do 18 simple apply contains_app_r.
    all: rewrite contains_unfold; apply orb_true_iff; left; reflexivity.
  - intros Hn. rewrite (str_or_eqb (OrderDetails.notes order)).
    apply String.eqb_neq in Hn. rewrite Hn. find_in_task.
  - intros ->. cbn [Py.str_or Py.str_truthy].
    do 21 simple apply contains_app_r.
    rewrite contains_unfold; apply orb_true_iff; left; reflexivity.
Qed.

Lemma task_message_mentions_order_witness :
  Py.contains "2024-02-01" (SupplyChainAgentSystem.task_message order_a) = true
  /\ Py.contains "fragile" (SupplyChainAgentSystem.task_message order_a) = true
  /\ Py.contains ("Required Date: " +:+ "Not specified" +:+ Py.nl)
       (SupplyChainAgentSystem.task_message order_b) = true.
Proof.
  destruct (task_message_mentions_order order_a)
    as (_ & _ & _ & _ & _ & Hdate & _ & Hnotes & _).
  destruct (task_message_mentions_order order_b)
    as (_ & _ & _ & _ & _ & _ & Hnone & _ & _).
  split; [| split].
  - apply Hdate; [reflexivity | discriminate].
  - apply Hnotes. discriminate.
  - apply Hnone. left. reflexivity.
Defined.

(** ** The global agent system and the response dictionary *)

(** Extra X12.  The first call of [get_agent_system] decides: on a fresh
    global it creates the mock system or the agent-driven one according to
    its flag, and every later call returns that same instance whatever
    flag it is given; once set, the global is never cleared or replaced. *)
Theorem get_agent_system_caches_first :
  (forall (flag : bool) (flags : list bool),
      run_calls (flag :: flags) None
      = (List.repeat (if flag then MockSystem else LLMSystem) (S (length flags)),
         Some (if flag then MockSystem else LLMSystem)))
  /\ (forall (s : AgentSystem) (flags : list bool),
         run_calls flags (Some s) = (List.repeat s (length flags), Some s)).
Proof.
  assert (Hset : forall (s : AgentSystem) (flags : list bool),
             run_calls flags (Some s) = (List.repeat s (length flags), Some s)).
  { intros s flags. induction flags as [| b flags IH]; [reflexivity |].
    cbn [run_calls get_agent_system]. rewrite IH. reflexivity. }
  split; [| exact Hset].
  intros flag flags. cbn [run_calls get_agent_system].
  rewrite Hset. reflexivity.
Qed.

Lemma map_OStr_inj (l1 l2 : list string) :
  map Py.OStr l1 = map Py.OStr l2 -> l1 = l2.
Proof.
  revert l2. induction l1 as [| a l1 IH]; intros [| b l2]; cbn; try easy.
  intros [= -> H]. f_equal. apply IH. exact H.
Qed.

(** Extra X13.  The response dictionary loses nothing of a result but the
    tracking number: two results give the same dictionary exactly when they
    agree once their tracking numbers are forgotten.  In particular a
    missing supplier, inventory or logistics record is never confused with
    a present one. *)
Theorem result_to_dict_injective_up_to_tracking :
  forall r1 r2 : SupplyChainResult.t,
    result_to_dict r1 = result_to_dict r2 <-> drop_tracking r1 = drop_tracking r2.
Proof.
  intros [i1 st1 su1 in1 lo1 cs1 re1 ts1] [i2 st2 su2 in2 lo2 cs2 re2 ts2].
  unfold result_to_dict, drop_tracking.
  cbn [SupplyChainResult.order_id SupplyChainResult.status SupplyChainResult.supplier
       SupplyChainResult.inventory SupplyChainResult.logistics
       SupplyChainResult.coordinator_summary SupplyChainResult.recommendations
       SupplyChainResult.timestamp].
  split.
  - intros H.
    injection H as Hi Hst Hts Ha Hsid Hup Hlt Hcap Hno Hin Hres Hav Hrp Hwl Hlu
                    Hca Hsc Hed Hsm Hcs Hre.
    apply map_OStr_inj in Hre. subst.
    destruct su1 as [[]|], su2 as [[]|]; cbn in *; try discriminate;
      destruct in1 as [[]|], in2 as [[]|]; cbn in *; try discriminate;
      destruct lo1 as [[]|], lo2 as [[]|]; cbn in *; try discriminate.
    all: repeat match goal with
           | H : Py.OStr _ = Py.OStr _ |- _ => injection H as H
           | H : Py.OInt _ = Py.OInt _ |- _ => injection H as H
           | H : Py.OBool _ = Py.OBool _ |- _ => injection H as H
           | H : Py.OFloat _ = Py.OFloat _ |- _ => injection H as H
           end.
    all: subst; reflexivity.
  - intros H. injection H as Hi Hst Hsu Hin Hlo Hcs Hre Hts. subst.
    destruct lo1 as [[]|], lo2 as [[]|]; cbn in *; try discriminate;
      [injection Hlo as -> -> -> -> | ]; reflexivity.
Qed.

(** Extra X14.  Every response dictionary has the same shape, whether or
    not the sub-records of the result are present: the same eight keys at
    the top and the same keys in the three inner dictionaries, none of them
    "tracking_number".  A missing supplier is reported as not available
    with None in its five other fields, a missing inventory with its four
    counts 0 and None for location and update time, a missing logistics
    record with None in all four fields. *)
Theorem result_to_dict_shape :
  forall r : SupplyChainResult.t,
    let d := result_to_dict r in
    obj_keys d = ["order_id"; "status"; "timestamp"; "supplier"; "inventory";
                  "logistics"; "coordinator_summary"; "recommendations"]
    /\ obj_keys <$> Py.obj_get d "supplier"
       = Some ["available"; "supplier_id"; "unit_price"; "lead_time_days";
               "capacity"; "notes"]
    /\ obj_keys <$> Py.obj_get d "inventory"
       = Some ["in_stock"; "reserved"; "available"; "reorder_point";
               "warehouse_location"; "last_updated"]
    /\ obj_keys <$> Py.obj_get d "logistics"
       = Some ["carrier"; "shipping_cost"; "estimated_delivery"; "shipping_method"]
    /\ obj_get2 d "logistics" "tracking_number" = None
    /\ (SupplyChainResult.supplier r = None ->
        Py.obj_get d "supplier"
        = Some (Py.ODict [("available", Py.OBool false); ("supplier_id", Py.ONone);
                          ("unit_price", Py.ONone); ("lead_time_days", Py.ONone);
                          ("capacity", Py.ONone); ("notes", Py.ONone)]))
    /\ (SupplyChainResult.inventory r = None ->
        Py.obj_get d "inventory"
        = Some (Py.ODict [("in_stock", Py.OInt 0); ("reserved", Py.OInt 0);
                          ("available", Py.OInt 0); ("reorder_point", Py.OInt 0);
                          ("warehouse_location", Py.ONone);
                          ("last_updated", Py.ONone)]))
    /\ (SupplyChainResult.logistics r = None ->
        Py.obj_get d "logistics"
        = Some (Py.ODict [("carrier", Py.ONone); ("shipping_cost", Py.ONone);
                          ("estimated_delivery", Py.ONone);
                          ("shipping_method", Py.ONone)])).
Proof.
  intros r d. subst d. unfold result_to_dict.
  split; [reflexivity |]. split; [reflexivity |]. split; [reflexivity |].
  split; [reflexivity |]. split; [reflexivity |].
  split; [| split]; intros ->; reflexivity.
Qed.

Lemma result_to_dict_shape_witness :
  let d := result_to_dict
             (SupplyChainResult.mk "ORD-1" "CONFIRMED" None None None "" [] "t") in
  obj_get2 d "supplier" "available" = Some (Py.OBool false)
  /\ obj_get2 d "inventory" "in_stock" = Some (Py.OInt 0)
  /\ obj_get2 d "logistics" "carrier" = Some Py.ONone.
Proof.
  destruct (result_to_dict_shape
              (SupplyChainResult.mk "ORD-1" "CONFIRMED" None None None "" [] "t"))
    as (_ & _ & _ & _ & _ & Hsup & Hinv & Hlog).
  unfold obj_get2. cbv zeta in *.
  rewrite Hsup, Hinv, Hlog by reflexivity.
  repeat split; reflexivity.
Defined.

(** Extra X15.  With no agent system yet, or with the mock one, the part of
    [process_supply_chain_order] after the order is built never raises and
    never consults the agents' stream: it returns the dictionary of the
    mock evaluator's result and leaves the mock system in the global.  So
    the "status" of the response is CONFIRMED exactly up to 500 units and
    the inventory it reports has 600 in stock. *)
Theorem process_built_order_mock_path :
  forall (run_stream : string -> TeamRun) (order : OrderDetails.t)
         (g : option AgentSystem) (c : Clock),
    g = None \/ g = Some MockSystem ->
    exists d : Py.PyObj,
      eval (process_built_order run_stream order g) c = (Py.Ok d, Some MockSystem)
      /\ d = result_to_dict (eval (process_order order) c)
      /\ Py.obj_get d "order_id" = Some (Py.OStr (OrderDetails.order_id order))
      /\ Py.obj_get d "status"
         = Some (Py.OStr (if OrderDetails.quantity order <=? 500
                          then "CONFIRMED" else "PENDING"))
      /\ obj_get2 d "inventory" "in_stock" = Some (Py.OInt 600).
Proof.
  intros run_stream order g c Hg.
  assert (Hrun : eval (process_built_order run_stream order g) c
                 = (Py.Ok (result_to_dict (eval (process_order order) c)),
                    Some MockSystem)).
  { destruct Hg as [-> | ->].
    all: unfold process_built_order, get_agent_system, agent_process_order,
           eval, bind, ret.
    all: destruct (process_order order c) as [r c']; reflexivity. }
  rewrite Hrun. eexists. split; [reflexivity |]. split; [reflexivity |].
  rewrite process_order_run. repeat split; reflexivity.
Qed.

Lemma process_built_order_mock_path_witness :
  exists d : Py.PyObj,
    eval (process_built_order (fun _ => ([TextMessage "CoordinatorAgent" "REJECTED"], Exhausted))
            (widget_order 20 "high") None) clock0 = (Py.Ok d, Some MockSystem)
    /\ Py.obj_get d "status" = Some (Py.OStr "CONFIRMED").
Proof.
  destruct (process_built_order_mock_path
              (fun _ => ([TextMessage "CoordinatorAgent" "REJECTED"], Exhausted))
              (widget_order 20 "high") None clock0 (or_introl eq_refl))
    as (d & Hd & _ & _ & Hst & _).
  exists d. split; [exact Hd | exact Hst].
Defined.

(** Extra X16.  When the agent-driven system is already in the global,
    [process_supply_chain_order] uses it although it asks for the mock.  If
    the team's stream is exhausted the response keeps the order id and
    reports the fixed supplier "SUP-001" and 500 in stock; its status comes
    from the stream alone, being PENDING for every quantity when the stream
    yields nothing.  If the stream raises, the exception is passed on.  The
    agent-driven system stays in the global either way. *)
Theorem process_built_order_cached_llm :
  forall (run_stream : string -> TeamRun) (order : OrderDetails.t) (c : Clock)
         (stream : list StreamItem),
    (run_stream (SupplyChainAgentSystem.task_message order) = (stream, Exhausted) ->
     exists d : Py.PyObj,
       eval (process_built_order run_stream order (Some LLMSystem)) c
       = (Py.Ok d, Some LLMSystem)
       /\ Py.obj_get d "order_id" = Some (Py.OStr (OrderDetails.order_id order))
       /\ obj_get2 d "supplier" "supplier_id" = Some (Py.OStr "SUP-001")
       /\ obj_get2 d "inventory" "in_stock" = Some (Py.OInt 500)
       /\ (stream = [] -> Py.obj_get d "status" = Some (Py.OStr "PENDING")))
    /\ (forall e : Py.PyError,
          run_stream (SupplyChainAgentSystem.task_message order) = (stream, Raised e) ->
          eval (process_built_order run_stream order (Some LLMSystem)) c
          = (Py.Raise e, Some LLMSystem)).
Proof.
  intros run_stream order c stream.
  unfold process_built_order, get_agent_system, agent_process_order.
  unfold SupplyChainAgentSystem.process_order, eval, bind.
  split.
  - intros ->.
    pose proof (parse_agent_responses_run (OrderDetails.order_id order) c
                  (SupplyChainAgentSystem.collect_messages stream)) as Hrun.
    unfold eval in Hrun.
    destruct (SupplyChainAgentSystem._parse_agent_responses _ _ c) as [outcome c'].
    cbn [fst] in Hrun. subst outcome.
    pose proof (collect_messages_well_formed stream) as Hwf.
    apply (parse_loop_well_formed _ ("", "PENDING")) in Hwf.
    destruct Hwf as [[m st] Hloop]. rewrite Hloop. unfold ret. cbn [fst].
    eexists. split; [reflexivity |]. repeat split; try reflexivity.
    intros Hempty. rewrite Hempty in Hloop. cbn in Hloop.
    injection Hloop as <- <-. reflexivity.
  - intros e ->. reflexivity.
Qed.

Lemma process_built_order_cached_llm_witness :
  (exists d : Py.PyObj,
      eval (process_built_order (fun _ => ([], Exhausted)) (widget_order 1 "normal")
              (Some LLMSystem)) clock0 = (Py.Ok d, Some LLMSystem)
      /\ Py.obj_get d "status" = Some (Py.OStr "PENDING"))
  /\ eval (process_built_order
             (fun _ => ([], Raised (Py.ExternalError "APIConnectionError")))
             (widget_order 1 "normal") (Some LLMSystem)) clock0
     = (Py.Raise (Py.ExternalError "APIConnectionError"), Some LLMSystem).
Proof.
  split.
  - destruct (proj1 (process_built_order_cached_llm (fun _ => ([], Exhausted))
                       (widget_order 1 "normal") clock0 []) eq_refl)
      as (d & Hd & _ & _ & _ & Hst).
    exists d. split; [exact Hd | apply Hst; reflexivity].
  - apply (proj2 (process_built_order_cached_llm
                    (fun _ => ([], Raised (Py.ExternalError "APIConnectionError")))
                    (widget_order 1 "normal") clock0 [])).
    reflexivity.
Defined.

(** ** The mock evaluator: recommendations by the order's fields *)

(** Extra X17.  In terms of the order alone: the "Insufficient stock"
    message is given exactly above 500 units, the split-shipment message
    exactly to urgent orders above 100 units, and the volume-pricing message
    exactly below 50 units, the threshold the message itself proposes. *)
Theorem recommendation_membership :
  forall (o : OrderDetails.t) (c : Clock),
    let recs := SupplyChainResult.recommendations (eval (process_order o) c) in
    (In msg_insufficient_stock recs <-> OrderDetails.quantity o > 500)
    /\ (In msg_split_shipments recs <->
        OrderDetails.priority o = "urgent" /\ OrderDetails.quantity o > 100)
    /\ (In msg_volume_pricing recs <-> OrderDetails.quantity o < 50).
Proof.
  intros o c recs. subst recs. rewrite recommendations_run. unfold keep_if.
  destruct (String.eqb_spec (OrderDetails.priority o) "urgent") as [Hu | Hu].
  all: destruct (Z.ltb_spec 500 (OrderDetails.quantity o)).
  all: destruct (Z.ltb_spec 100 (OrderDetails.quantity o)).
  all: destruct (Z.ltb_spec (OrderDetails.quantity o) 50); try lia.
  all: cbn [andb app In].
  all: repeat split; intros; try lia; try assumption; try tauto.
  all: repeat match goal with
         | H : _ /\ _ |- _ => destruct H
         | H : _ \/ _ |- _ => destruct H
         | H : False |- _ => destruct H
         | H : _ = _ |- _ => discriminate H
         end; try lia; try contradiction.
Qed.

(** ** Generated order ids *)

Lemma all_below_spec (n : nat) (P : Z -> bool) :
  all_below n P = true -> forall z : Z, 0 <= z < Z.of_nat n -> P z = true.
Proof.
  induction n as [| k IH]; cbn [all_below]; intros H z Hz; [lia |].
  apply andb_true_iff in H. destruct H as [Hk Hrest].
  destruct (Z.eq_dec z (Z.of_nat k)) as [-> | Hne]; [exact Hk |].
  apply IH; [exact Hrest | lia].
Qed.

Lemma pads_back_spec (width : nat) (z : Z) :
  pads_back width z = true ->
  String.length (datetime.zero_pad width z) = width
  /\ Py.all_digits (datetime.zero_pad width z) = true
  /\ digits_value (datetime.zero_pad width z) = z.
Proof.
  unfold pads_back. intros H.
  apply andb_true_iff in H. destruct H as [H Hv].
  apply andb_true_iff in H. destruct H as [Hl Hd].
  apply Nat.eqb_eq in Hl. apply Z.eqb_eq in Hv. repeat split; assumption.
Qed.

Lemma zero_pad_2_back (z : Z) :
  0 <= z < 100 ->
  String.length (datetime.zero_pad 2 z) = 2%nat
  /\ Py.all_digits (datetime.zero_pad 2 z) = true
  /\ digits_value (datetime.zero_pad 2 z) = z.
Proof.
  intros Hz. apply pads_back_spec.
  apply (all_below_spec 100); [vm_compute; reflexivity | lia].
Qed.

Lemma zero_pad_4_back (z : Z) :
  0 <= z < 10000 ->
  String.length (datetime.zero_pad 4 z) = 4%nat
  /\ Py.all_digits (datetime.zero_pad 4 z) = true
  /\ digits_value (datetime.zero_pad 4 z) = z.
Proof.
  intros Hz. apply pads_back_spec.
  apply (all_below_spec (Z.to_nat 10000)); [vm_compute; reflexivity |].
  rewrite Z2Nat.id; lia.
Qed.

Lemma all_digits_app (a b : string) :
  Py.all_digits (a +:+ b) = Py.all_digits a && Py.all_digits b.
Proof.
  induction a as [| x a IH]; [reflexivity |].
  simpl. rewrite IH. apply andb_assoc.
Qed.

Lemma app_str_inj (a1 a2 b1 b2 : string) :
  String.length a1 = String.length a2 ->
  a1 +:+ b1 = a2 +:+ b2 -> a1 = a2 /\ b1 = b2.
Proof.
  revert a2. induction a1 as [| x a1 IH]; intros [| y a2]; cbn; try easy.
  intros [= Hlen] [= -> Happ]. destruct (IH a2 Hlen Happ) as [-> ->].
  split; reflexivity.
Qed.

Lemma strftime_same_second (a b : datetime.t) :
  valid_reading a -> valid_reading b ->
  datetime.strftime_YmdHMS a = datetime.strftime_YmdHMS b <-> same_second a b.
Proof.
  intros (Hy & Hm & Hd & Hh & Hmi & Hs) (Hy' & Hm' & Hd' & Hh' & Hmi' & Hs').
  unfold datetime.strftime_YmdHMS, same_second. split.
  - intros H.
    destruct (zero_pad_4_back (datetime.year a)) as (Ly & _ & Vy); [lia |].
    destruct (zero_pad_4_back (datetime.year b)) as (Ly' & _ & Vy'); [lia |].
    destruct (zero_pad_2_back (datetime.month a)) as (Lm & _ & Vm); [lia |].
    destruct (zero_pad_2_back (datetime.month b)) as (Lm' & _ & Vm'); [lia |].
    destruct (zero_pad_2_back (datetime.day a)) as (Ld & _ & Vd); [lia |].
    destruct (zero_pad_2_back (datetime.day b)) as (Ld' & _ & Vd'); [lia |].
    destruct (zero_pad_2_back (datetime.hour a)) as (Lh & _ & Vh); [lia |].
    destruct (zero_pad_2_back (datetime.hour b)) as (Lh' & _ & Vh'); [lia |].
    destruct (zero_pad_2_back (datetime.minute a)) as (Lmi & _ & Vmi); [lia |].
    destruct (zero_pad_2_back (datetime.minute b)) as (Lmi' & _ & Vmi'); [lia |].
    destruct (zero_pad_2_back (datetime.second a)) as (Ls & _ & Vs); [lia |].
    destruct (zero_pad_2_back (datetime.second b)) as (Ls' & _ & Vs'); [lia |].
    apply app_str_inj in H; [| congruence]. destruct H as [Ey H].
    apply app_str_inj in H; [| congruence]. destruct H as [Em H].
    apply app_str_inj in H; [| congruence]. destruct H as [Ed H].
    apply app_str_inj in H; [| congruence]. destruct H as [Eh H].
    apply app_str_inj in H; [| congruence]. destruct H as [Emi Es].
    repeat split; congruence.
  - intros (-> & -> & -> & -> & -> & ->). reflexivity.
Qed.

(** Extra X18.  The order id generated for a request without "order_id" is
    "ORD-" followed by fourteen decimal digits, and it identifies the second
    of the clock reading and nothing finer: two such requests get the same
    id exactly when their readings fall within the same second, so requests
    within one second collide and requests in different seconds never do. *)
Theorem generated_order_id_per_second :
  forall (d1 d2 : gmap string Py.PyVal) (c1 c2 : Clock),
    d1 !! "order_id" = None ->
    d2 !! "order_id" = None ->
    valid_reading (c1 O) ->
    valid_reading (c2 O) ->
    (OrderArgs.order_id (eval (order_of_request d1) c1)
     = OrderArgs.order_id (eval (order_of_request d2) c2)
     <-> same_second (c1 O) (c2 O))
    /\ exists digits : string,
         OrderArgs.order_id (eval (order_of_request d1) c1)
         = Py.PyStr ("ORD-" +:+ digits)
         /\ String.length digits = 14%nat
         /\ Py.all_digits digits = true.
Proof.
  intros d1 d2 c1 c2 H1 H2 V1 V2.
  unfold eval, order_of_request, bind, utcnow, ret, Py.dict_get. cbn [fst snd].
  cbn [OrderArgs.order_id]. rewrite H1, H2. split.
  - rewrite <- (strftime_same_second (c1 O) (c2 O) V1 V2). split.
    + intros [= H]. exact H.
    + intros ->. reflexivity.
  - eexists. split; [reflexivity |].
    destruct V1 as (Hy & Hm & Hd & Hh & Hmi & Hs).
    unfold datetime.strftime_YmdHMS.
    rewrite !length_app_str, !all_digits_app.
    destruct (zero_pad_4_back (datetime.year (c1 O))) as (-> & -> & _); [lia |].
    destruct (zero_pad_2_back (datetime.month (c1 O))) as (-> & -> & _); [lia |].
    destruct (zero_pad_2_back (datetime.day (c1 O))) as (-> & -> & _); [lia |].
    destruct (zero_pad_2_back (datetime.hour (c1 O))) as (-> & -> & _); [lia |].
    destruct (zero_pad_2_back (datetime.minute (c1 O))) as (-> & -> & _); [lia |].
    destruct (zero_pad_2_back (datetime.second (c1 O))) as (-> & -> & _); [lia |].
    split; reflexivity.
Qed.

Lemma generated_order_id_per_second_witness :
  OrderArgs.order_id (eval (order_of_request sample_request) clock0)
  = OrderArgs.order_id (eval (order_of_request ∅) clock0_later).
Proof.
  apply (generated_order_id_per_second sample_request ∅ clock0 clock0_later).
  - reflexivity.
  - apply lookup_empty.
  - unfold valid_reading. cbn. lia.
  - unfold valid_reading. cbn. lia.
  - repeat split; reflexivity.
Defined.

(** ** From the request to the response *)

(** Extra X19.  A request that gives none of the recognized fields, the
    empty request included, is accepted: the order built from it is one
    unit of "Unknown Product" at normal priority, and on a fresh process the
    response is CONFIRMED at the unit price 30.00 from supplier "SUP-UNK",
    with the volume-pricing message as its only recommendation. *)
Theorem request_without_fields_is_confirmed :
  forall (run_stream : string -> TeamRun) (d : gmap string Py.PyVal)
         (c : Clock),
    (forall k : string, In k recognized_fields -> d !! k = None) ->
    exists o : OrderDetails.t,
      OrderArgs.typed (eval (order_of_request d) c) = Some o
      /\ OrderDetails.product_name o = "Unknown Product"
      /\ OrderDetails.quantity o = 1
      /\ OrderDetails.priority o = "normal"
      /\ exists resp : Py.PyObj,
           eval (process_built_order run_stream o None) (snd (order_of_request d c))
           = (Py.Ok resp, Some MockSystem)
           /\ Py.obj_get resp "status" = Some (Py.OStr "CONFIRMED")
           /\ Py.obj_get resp "recommendations"
              = Some (Py.OList [Py.OStr msg_volume_pricing])
           /\ obj_get2 resp "supplier" "supplier_id" = Some (Py.OStr "SUP-UNK")
           /\ obj_get2 resp "supplier" "unit_price" = Some (Py.OFloat 30%float).
Proof.
  intros run_stream d c Hnone.
  assert (Hk : forall k, In k recognized_fields -> forall v, Py.dict_get d k v = v).
  { intros k Hin v. unfold Py.dict_get. rewrite (Hnone k Hin). reflexivity. }
  unfold eval, order_of_request, bind, utcnow, ret. cbn [fst snd].
  rewrite !Hk by (unfold recognized_fields; cbn [In]; tauto).
  eexists. split; [reflexivity |].
  split; [reflexivity |]. split; [reflexivity |]. split; [reflexivity |].
  match goal with
  | |- context [process_built_order ?rs ?o None ?clk] =>
      assert (Hrun : process_built_order rs o None clk
                     = ((Py.Ok (result_to_dict (eval (process_order o) clk)),
                         Some MockSystem),
                        snd (process_order o clk)))
  end.
  { unfold process_built_order, get_agent_system, agent_process_order,
      eval, bind, ret.
    match goal with |- context [process_order ?o ?clk] =>
      destruct (process_order o clk) as [r c'] end.
    reflexivity. }
  rewrite Hrun. cbn [fst]. eexists. split; [reflexivity |].
  rewrite process_order_run. repeat split; reflexivity.
Qed.

Lemma request_without_fields_is_confirmed_witness :
  exists o : OrderDetails.t,
    OrderArgs.typed (eval (order_of_request ∅) clock0) = Some o
    /\ OrderDetails.quantity o = 1.
Proof.
  destruct (request_without_fields_is_confirmed (fun _ => ([], Exhausted)) ∅ clock0)
    as (o & Ho & _ & Hq & _).
  - intros k _. apply lookup_empty.
  - exists o. split; [exact Ho | exact Hq].
Defined.
